(** * datahub_actions.entrypoints: the command-line bootstrap shell

    A shallow embedding of [src/datahub_actions/entrypoints.py]: the
    [datahub_actions] click group callback (logging configuration, severity
    policy, optional metrics listener, invocation context) and the [main]
    wrapper that turns the outcome of the dispatch into a process exit code.

    The collaborators the module calls (the [logging] package of the Python
    standard library, click, stackprinter, prometheus_client, the datahub
    helper [get_boolean_env_variable]) are not part of the module.  Their
    observable behaviour is modelled in the module [Logging] and the
    definitions below, or taken as a section variable where only the
    result matters. *)

From Stdlib Require Import ZArith List String Bool Lia.
From stdpp Require Import gmap strings list.

Local Open Scope string_scope.
Local Open Scope list_scope.
Local Open Scope Z_scope.

(** ** The [logging] package *)

Module Logging.

(** Severity levels are plain integers in Python. *)
Definition NOTSET : Z := 0.
Definition DEBUG : Z := 10.
Definition INFO : Z := 20.
Definition WARNING : Z := 30.
Definition ERROR : Z := 40.
Definition CRITICAL : Z := 50.

Record LogRecord := mkRecord {
  rec_name : string;
  levelno : Z;
  rec_msg : string
}.

Inductive Stream := stdout | stderr.

(** The two handler classes the module instantiates. *)
Inductive HandlerKind :=
| StreamHandler (stream : Stream)
| TimedRotatingFileHandler (filename : string) (when : string)
                           (interval : Z) (backupCount : Z).

(** [class LogFilter(logging.Filter)], lines 40-48 of the source: the
    object only stores [level]. *)
Record LogFilter := mkLogFilter { level : Z }.

(** [LogFilter.filter]: [return record.levelno <= self.level]. *)
Definition filter (self : LogFilter) (record : LogRecord) : bool :=
  levelno record <=? level self.

Record Handler := mkHandler {
  h_kind : HandlerKind;
  h_level : Z;
  h_filters : list LogFilter;
  h_formatter : option string
}.

(** Handlers are objects: a logger holds references to them, and
    [setLevel] on a handler after [addHandler] is seen by the logger.
    A reference is an index in the handler store. *)
Definition href := nat.

Record Logger := mkLogger {
  lg_level : Z;
  lg_handlers : list href;
  lg_propagate : bool
}.

(** The three nodes of the logger hierarchy the module touches:
    the root logger, ["datahub_actions"] and the module's own
    [logging.getLogger(__name__)], ["datahub_actions.entrypoints"]. *)
Inductive LoggerName := Root | DatahubActions | Entrypoints.

Definition logger_name (n : LoggerName) : string :=
  match n with
  | Root => "root"
  | DatahubActions => "datahub_actions"
  | Entrypoints => "datahub_actions.entrypoints"
  end.

Record State := mkState {
  store : list Handler;
  root : Logger;
  datahub_logger : Logger;
  logger : Logger
}.

Definition get (st : State) (n : LoggerName) : Logger :=
  match n with
  | Root => root st
  | DatahubActions => datahub_logger st
  | Entrypoints => logger st
  end.

Definition put (n : LoggerName) (l : Logger) (st : State) : State :=
  match n with
  | Root => mkState (store st) l (datahub_logger st) (logger st)
  | DatahubActions => mkState (store st) (root st) l (logger st)
  | Entrypoints => mkState (store st) (root st) (datahub_logger st) l
  end.

(** [Logger.parent]. *)
Definition parent (n : LoggerName) : option LoggerName :=
  match n with
  | Root => None
  | DatahubActions => Some Root
  | Entrypoints => Some DatahubActions
  end.

(** The logger followed by its ancestors, nearest first. *)
Definition chain (n : LoggerName) : list LoggerName :=
  match n with
  | Root => [Root]
  | DatahubActions => [DatahubActions; Root]
  | Entrypoints => [Entrypoints; DatahubActions; Root]
  end.

(** *** Mutators used by the bootstrap *)

(** Instantiating a handler: level [NOTSET], no filter, no formatter.
    The new object's reference is the next free index of the store. *)
Definition new_handler (k : HandlerKind) (st : State) : href * State :=
  (length (store st),
   mkState (store st ++ [mkHandler k NOTSET [] None])
           (root st) (datahub_logger st) (logger st)).

Definition update_handler (h : href) (f : Handler -> Handler) (st : State) : State :=
  match store st !! h with
  | Some x => mkState (<[h := f x]> (store st)) (root st) (datahub_logger st) (logger st)
  | None => st
  end.

Definition update_logger (n : LoggerName) (f : Logger -> Logger) (st : State) : State :=
  put n (f (get st n)) st.

(** The configuration calls of the [logging] API that the module makes. *)
Inductive Op :=
| addFilter (h : href) (f : LogFilter)
| Handler_setLevel (h : href) (lvl : Z)
| setFormatter (h : href) (fmt : string)
| addHandler (n : LoggerName) (h : href)
| set_propagate (n : LoggerName) (b : bool)
| setLevel (n : LoggerName) (lvl : Z).

Definition apply (o : Op) : State -> State :=
  match o with
  | addFilter h f =>
      update_handler h (fun x =>
        mkHandler (h_kind x) (h_level x) (h_filters x ++ [f]) (h_formatter x))
  | Handler_setLevel h lvl =>
      update_handler h (fun x =>
        mkHandler (h_kind x) lvl (h_filters x) (h_formatter x))
  | setFormatter h fmt =>
      update_handler h (fun x =>
        mkHandler (h_kind x) (h_level x) (h_filters x) (Some fmt))
  | addHandler n h =>
      (* [if not (hdlr in self.handlers): self.handlers.append(hdlr)] *)
      update_logger n (fun l =>
        if existsb (Nat.eqb h) (lg_handlers l) then l
        else mkLogger (lg_level l) (lg_handlers l ++ [h]) (lg_propagate l))
  | set_propagate n b =>
      update_logger n (fun l => mkLogger (lg_level l) (lg_handlers l) b)
  | setLevel n lvl =>
      update_logger n (fun l => mkLogger lvl (lg_handlers l) (lg_propagate l))
  end.

(** *** Emitting a record *)

(** What reaches a sink: the destination, the format and the record. *)
Record Emission := mkEmission {
  em_sink : HandlerKind;
  em_format : option string;
  em_record : LogRecord
}.

(** [Filterer.filter]: every attached filter must let the record through. *)
Definition Filterer_filter (h : Handler) (record : LogRecord) : bool :=
  forallb (fun f => filter f record) (h_filters h).

(** One iteration of the handler loop of [Logger.callHandlers]:
    [if record.levelno >= hdlr.level: hdlr.handle(record)], where
    [Handler.handle] emits when the handler's filters agree. *)
Definition handle_one (h : Handler) (record : LogRecord) : list Emission :=
  if (h_level h <=? levelno record) && Filterer_filter h record
  then [mkEmission (h_kind h) (h_formatter h) record]
  else [].

Definition deref (st : State) (h : href) : list Handler :=
  match store st !! h with Some x => [x] | None => [] end.

Definition logger_emits (st : State) (l : Logger) (record : LogRecord) : list Emission :=
  flat_map (fun h => flat_map (fun x => handle_one x record) (deref st h)) (lg_handlers l).

(** The [while c:] loop of [Logger.callHandlers] over the ancestor chain:
    returns the number of handlers found and what they emitted.  The walk
    stops after the first logger whose [propagate] is false. *)
Fixpoint walk (st : State) (ns : list LoggerName) (record : LogRecord)
  : nat * list Emission :=
  match ns with
  | [] => (0%nat, [])
  | n :: rest =>
      let l := get st n in
      let here := logger_emits st l record in
      if lg_propagate l then
        let '(found, out) := walk st rest record in
        ((length (lg_handlers l) + found)%nat, here ++ out)
      else (length (lg_handlers l), here)
  end.

(** [logging.lastResort]: a stderr handler at level WARNING, used when no
    handler at all was found on the way up. *)
Definition lastResort : Handler :=
  mkHandler (StreamHandler stderr) WARNING [] None.

Definition callHandlers (st : State) (n : LoggerName) (record : LogRecord)
  : list Emission :=
  let '(found, out) := walk st (chain n) record in
  if Nat.eqb found 0 then handle_one lastResort record else out.

(** [Logger.getEffectiveLevel]: the first level on the chain that is set. *)
Fixpoint first_level (st : State) (ns : list LoggerName) : Z :=
  match ns with
  | [] => NOTSET
  | n :: rest =>
      if lg_level (get st n) =? 0 then first_level st rest
      else lg_level (get st n)
  end.

Definition getEffectiveLevel (st : State) (n : LoggerName) : Z :=
  first_level st (chain n).

(** [logging.root.manager.disable]: the module never calls
    [logging.disable], so the value is the initial one. *)
Definition manager_disable : Z := 0.

(** [Logger.isEnabledFor]: [if self.manager.disable >= level] the record
    is refused, otherwise [level >= self.getEffectiveLevel()] decides. *)
Definition isEnabledFor (st : State) (n : LoggerName) (lvl : Z) : bool :=
  if lvl <=? manager_disable then false
  else getEffectiveLevel st n <=? lvl.

(** [Logger.log(level, msg)]: the emissions of one logging call.
    [Logger.disabled] and filters on loggers keep their defaults, the
    module never sets them, and are left out. *)
Definition log (st : State) (n : LoggerName) (lvl : Z) (msg : string)
  : list Emission :=
  if isEnabledFor st n lvl
  then callHandlers st n (mkRecord (logger_name n) lvl msg)
  else [].

(** The sinks one logging call writes to. *)
Definition sinks (st : State) (n : LoggerName) (lvl : Z) (msg : string)
  : list HandlerKind :=
  map em_sink (log st n lvl msg).

(** *** Rotation of the log file

    [TimedRotatingFileHandler.doRollover], as far as the rotated backups
    in the log directory go.  A backup is named after the day it covers;
    the list is kept in the order of those names, oldest first, and the
    day that just ended is the latest. *)

(** [getFilesToDelete]: nothing while fewer than [backupCount] backups
    exist, otherwise all but the [backupCount] most recent ones. *)
Definition getFilesToDelete (backupCount : Z) (backups : list nat) : list nat :=
  if Z.of_nat (length backups) <? backupCount then []
  else take (length backups - Z.to_nat backupCount) backups.

(** [doRollover]: a backup of the same name is replaced, the live file
    becomes the newest backup, and [if self.backupCount > 0] the files
    to delete are removed. *)
Definition doRollover (backupCount : Z) (backups : list nat) (day : nat) : list nat :=
  let kept := List.filter (fun d => negb (Nat.eqb d day)) backups ++ [day] in
  if 0 <? backupCount
  then drop (length (getFilesToDelete backupCount kept)) kept
  else kept.

(** The backups present after a run of midnights. *)
Definition after_midnights (backupCount : Z) (backups : list nat) (days : list nat)
  : list nat :=
  fold_left (doRollover backupCount) days backups.

Definition backupCount_of (k : HandlerKind) : Z :=
  match k with
  | TimedRotatingFileHandler _ _ _ n => n
  | StreamHandler _ => 0
  end.

End Logging.

Import Logging.

(** ** Python values and exceptions *)

Inductive PyVal :=
| PyNone
| PyBool (b : bool)
| PyInt (z : Z)
| PyStr (s : string).

(** The exception classes the [except] clauses of [main] and of click's
    [Command.main] tell apart. *)
Inductive PyClass :=
| BaseException
| Exception
| SystemExit
| KeyboardInterrupt
| RuntimeError
| EOFError
| OSError
| Abort            (* click.exceptions.Abort *)
| ClickExit        (* click.exceptions.Exit *)
| ClickException   (* click.ClickException *)
| UsageError       (* click.UsageError *)
| UserClass (name : string).

#[global] Instance PyClass_eq_dec : EqDecision PyClass.
Proof. solve_decision. Defined.

(** An exception object: its class followed by that class's bases (the
    method resolution order), the text of [format_message()] / [str()],
    the [code] attribute that [SystemExit] carries ([exit_code] on click's
    [Exit]), and the [errno] of an [OSError]. *)
Record PyException := mkExc {
  exc_mro : list PyClass;
  exc_message : string;
  exc_code : PyVal;
  exc_errno : option Z
}.

Definition isinstance (e : PyException) (c : PyClass) : bool :=
  bool_decide (c ∈ exc_mro e).

(** The direct base classes in Python and click; nothing is known of the
    bases of a class defined elsewhere. *)
Definition bases (c : PyClass) : list PyClass :=
  match c with
  | BaseException => []
  | Exception | SystemExit | KeyboardInterrupt => [BaseException]
  | RuntimeError | EOFError | OSError | ClickException => [Exception]
  | Abort | ClickExit => [RuntimeError]
  | UsageError => [ClickException]
  | UserClass _ => []
  end.

(** The class list of an exception object is closed under base classes,
    as every method resolution order is. *)
Definition follows_hierarchy (e : PyException) : bool :=
  forallb (fun c => forallb (fun b => bool_decide (b ∈ exc_mro e)) (bases c))
          (exc_mro e).

(** [errno.EPIPE]. *)
Definition EPIPE : Z := 32.

(** What a call returns to its caller. *)
Inductive Outcome :=
| Returned (v : PyVal)
| Raised (e : PyException).

(** How the process ends. *)
Inductive ProcessEnd :=
| Exited (code : Z)
| Uncaught (e : PyException).

(** [click.Context.obj]: nothing, a dict, or some other object. *)
Inductive PyObj :=
| ObjNone
| ObjDict (d : gmap string PyVal)
| ObjOther (v : PyVal).

Record Context := mkContext { obj : PyObj }.

(** The keyword arguments of [stackprinter.format] that [main] passes. *)
Record FormatOpts := mkFormatOpts {
  line_wrap : Z;
  truncate_vals : Z;
  suppressed_paths : list string;
  show_vals : bool
}.

(** ** The process: environment, logging state and what it did *)

Inductive Event :=
| EvNew (k : HandlerKind) (h : href)            (* a handler was instantiated *)
| EvLogging (o : Op)                            (* a logging configuration call *)
| EvEnv (name : string)                         (* an environment variable was read *)
| EvHttpServer (port : Z)                       (* prometheus_client.start_http_server *)
| EvInvoke (o : PyObj)                          (* click invokes the sub-command *)
| EvFormat (e : PyException) (o : FormatOpts)   (* stackprinter.format *)
| EvLog (n : LoggerName) (lvl : Z) (msg : string) (* Logger.log *)
| EvEmit (e : Emission)                         (* a handler wrote a record *)
| EvShow (e : PyException)                      (* ClickException.show() *)
| EvPrint (s : Stream) (text : string).         (* a direct write to a stream *)

Record World := mkWorld {
  environ : gmap string string;
  logging : Logging.State;
  trace : list Event
}.

(** A computation reads and updates the world. *)
Definition Prog (A : Type) : Type := World -> A * World.

#[global] Instance Prog_ret : MRet Prog := fun A a w => (a, w).
#[global] Instance Prog_bind : MBind Prog :=
  fun A B f m w => let '(a, w') := m w in f a w'.

Definition record (e : Event) : Prog unit :=
  fun w => (tt, mkWorld (environ w) (logging w) (trace w ++ [e])).

(** A handler constructor call. *)
Definition new (k : HandlerKind) : Prog href :=
  fun w =>
    let '(h, st) := new_handler k (logging w) in
    (h, mkWorld (environ w) st (trace w ++ [EvNew k h])).

(** A logging configuration call. *)
Definition call (o : Op) : Prog unit :=
  fun w => (tt, mkWorld (environ w) (apply o (logging w)) (trace w ++ [EvLogging o])).

(** A logging call on logger [n]: the call itself, then one write per
    handler that accepts the record. *)
Definition log_call (n : LoggerName) (lvl : Z) (msg : string) : Prog unit :=
  fun w =>
    (tt, mkWorld (environ w) (logging w)
           (trace w ++ EvLog n lvl msg :: map EvEmit (Logging.log (logging w) n lvl msg))).

Definition exec {A} (p : Prog A) (w : World) : World := snd (p w).
Definition result {A} (p : Prog A) (w : World) : A := fst (p w).

(** ** Module constants *)

Definition BASE_LOGGING_FORMAT : string :=
  "[%(asctime)s] %(levelname)-8s {%(name)s:%(lineno)d} - %(message)s".
Definition LOGGING_FILE_LOCATION : string :=
  "/tmp/datahub/logs/actions/actions.out".
Definition MAX_CONTENT_WIDTH : Z := 120.

(** The logging state once the module is imported (lines 28 and 35):
    [logging.getLogger(__name__)] made the module logger, and
    [logging.basicConfig(format=...)] gave the root logger, whose level is
    WARNING from the start, a stderr handler with the base format. *)
Definition import_logging : Logging.State :=
  mkState [mkHandler (StreamHandler stderr) NOTSET [] (Some BASE_LOGGING_FORMAT)]
          (mkLogger WARNING [0%nat] true)
          (mkLogger NOTSET [] true)
          (mkLogger NOTSET [] true).

Definition import_world (env : gmap string string) : World :=
  mkWorld env import_logging [].

(** ** The command line *)

(** What the user typed, before click fills in the defaults: a flag is
    present or not, an option with a value is given or not, and the
    [--debug/--no-debug] pair is given one way, the other way, or not. *)
Record Options := mkOptions {
  opt_enable_monitoring : bool;
  opt_monitoring_port : option Z;
  opt_debug : option bool;
  opt_detect_memory_leaks : bool
}.

(** The parameters click passes to the callback, from the decorators of
    lines 58-85: [default=False], [default=8000], [default=False],
    [default=False]. *)
Definition enable_monitoring_of (o : Options) : bool := opt_enable_monitoring o.
Definition monitoring_port_of (o : Options) : Z := default 8000 (opt_monitoring_port o).
Definition debug_of (o : Options) : bool := default false (opt_debug o).
Definition detect_memory_leaks_of (o : Options) : bool := opt_detect_memory_leaks o.

(** [Context.ensure_object(dict)] on the top-level context: keep [obj] when
    it is a dict, otherwise install a fresh empty one. *)
Definition ensure_object (ctx : Context) : Context :=
  match obj ctx with
  | ObjDict _ => ctx
  | _ => mkContext (ObjDict ∅)
  end.

(** [ctx.obj[key] = v].  After [ensure_object] the object is a dict. *)
Definition setitem (ctx : Context) (key : string) (v : PyVal) : Context :=
  match obj ctx with
  | ObjDict d => mkContext (ObjDict (<[key := v]> d))
  | _ => ctx
  end.

(** The status the operating system reports for [sys.exit(z)]: the
    interpreter converts the integer to a C [long], which gives [-1] when
    it does not fit, and the process status is the low eight bits. *)
Definition exit_status (z : Z) : Z :=
  (if (- 2 ^ 63 <=? z) && (z <? 2 ^ 63) then z else -1) mod 256.

(** [sys.exit(v)] at the end of the process: [None] is status 0, an
    integer (a [bool] is one) gives [exit_status], anything else is
    printed to standard error with status 1. *)
Definition sys_exit (v : PyVal) : Prog ProcessEnd :=
  match v with
  | PyNone => mret (Exited 0)
  | PyInt z => mret (Exited (exit_status z))
  | PyBool b => mret (Exited (if b then 1 else 0))
  | PyStr s => record (EvPrint stderr s);; mret (Exited 1)
  end.

(** The line end [click.echo] writes after its message. *)
Definition newline : string := String (Ascii.ascii_of_nat 10) EmptyString.

(** The [Abort()] that click raises in place of an interrupt, and the
    [SystemExit] of a [sys.exit(code)] inside click. *)
Definition click_Abort : PyException :=
  mkExc [Abort; RuntimeError; Exception; BaseException] "" PyNone None.

Definition SystemExit_of (code : Z) : PyException :=
  mkExc [SystemExit; BaseException] "" (PyInt code) None.

(** The [except] clauses of [click.Command.main] around the invocation,
    with [standalone_mode=False].  The inner [try]: an [EOFError] or a
    [KeyboardInterrupt] becomes [Abort] after an empty line on standard
    error, a [ClickException] is raised again, an [OSError] with [EPIPE]
    ends in [sys.exit(1)].  The outer [try]: an [Exit] turns into the
    return of its [exit_code], anything else goes on to the caller. *)
Definition Command_main_except (r : Outcome) : Prog Outcome :=
  match r with
  | Returned v => mret (Returned v)
  | Raised e =>
      e' ← (if isinstance e EOFError || isinstance e KeyboardInterrupt then
              record (EvPrint stderr newline);; mret click_Abort
            else if isinstance e ClickException then mret e
            else if isinstance e OSError then
              mret (if bool_decide (exc_errno e = Some EPIPE)
                    then SystemExit_of 1 else e)
            else mret e);
      mret (if isinstance e' ClickExit then Returned (exc_code e')
            else Raised e')
  end.

(** Python's short-circuit [a or b]: [b] is evaluated only when [a] is false. *)
Definition por (a : bool) (b : Prog bool) : Prog bool :=
  if a then mret true else b.

(** What the interpreter and the package report about themselves. *)
Record Runtime := mkRuntime {
  package_version : string;     (* datahub_package.__version__ *)
  package_file : string;        (* datahub_package.__file__ *)
  sys_version : string;
  sys_executable : string;
  platform_platform : string
}.

(** The keyword arguments of [main] that reach the click context. *)
Record Kwargs := mkKwargs { kw_obj : PyObj }.

(** A sub-command of the group: it receives the context object and runs
    in the world the group callback left. *)
Definition SubCommand : Type := PyObj -> Prog Outcome.

(** What click makes of the command line before the group callback can
    run: parsing the options and resolving the command name either give
    the sub-command to invoke, or raise (a [UsageError] for an unknown
    command or option or a bad value, an [Exit] once [--help] or
    [--version] printed its text). *)
Inductive Parsed :=
| Resolved (sub : SubCommand)
| Rejected (e : PyException).

Section Entrypoints.

(** [datahub.cli.cli_utils.get_boolean_env_variable(name, default)]
    evaluated in the process environment. *)
Variable get_boolean_env_variable : gmap string string -> string -> bool -> bool.

(** [stackprinter.format(exc, **opts)]. *)
Variable stackprinter_format : PyException -> FormatOpts -> string.

Variable rt : Runtime.

Definition getenv_bool (name : string) (dflt : bool) : Prog bool :=
  fun w =>
    (get_boolean_env_variable (environ w) name dflt,
     mkWorld (environ w) (logging w) (trace w ++ [EvEnv name])).

Definition start_http_server (port : Z) : Prog unit :=
  record (EvHttpServer port).

(** The group callback, lines 87-136. *)
Definition datahub_actions (ctx : Context) (enable_monitoring : bool)
    (monitoring_port : Z) (debug : bool) (detect_memory_leaks : bool)
  : Prog Context :=
  let datahub_logger := DatahubActions in
  let formatter := BASE_LOGGING_FORMAT in
  info_handler ← new (StreamHandler stdout);
  call (addFilter info_handler (mkLogFilter INFO));;
  call (Handler_setLevel info_handler INFO);;
  call (setFormatter info_handler formatter);;
  error_handler ← new (StreamHandler stderr);
  call (Handler_setLevel error_handler WARNING);;
  call (setFormatter error_handler formatter);;
  file_handler ← new (TimedRotatingFileHandler LOGGING_FILE_LOCATION "midnight" 1 10);
  call (Handler_setLevel file_handler INFO);;
  call (setFormatter file_handler formatter);;
  call (addHandler datahub_logger info_handler);;
  call (addHandler datahub_logger error_handler);;
  call (addHandler datahub_logger file_handler);;
  call (set_propagate datahub_logger false);;
  dbg ← por debug (getenv_bool "DATAHUB_DEBUG" false);
  (if dbg : bool then
     call (setLevel Root INFO);;
     call (Handler_setLevel info_handler DEBUG);;
     call (Handler_setLevel file_handler DEBUG);;
     call (setLevel datahub_logger DEBUG)
   else
     call (setLevel Root WARNING);;
     call (setLevel datahub_logger INFO));;
  (if enable_monitoring then start_http_server monitoring_port else mret tt);;
  let ctx := ensure_object ctx in
  mret (setitem ctx "detect_memory_leaks" (PyBool detect_memory_leaks)).

(** The group callback as click calls it: on the context built from the
    keyword arguments, with the parsed parameters. *)
Definition bootstrap (kw : Kwargs) (o : Options) : Prog Context :=
  datahub_actions (mkContext (kw_obj kw)) (enable_monitoring_of o)
    (monitoring_port_of o) (debug_of o) (detect_memory_leaks_of o).

(** The invocation of the group once the command is resolved: click runs
    the group callback, then invokes the sub-command with the context
    object; the sub-command's return value is the result. *)
Definition group_main (kw : Kwargs) (o : Options) (sub : SubCommand)
  : Prog Outcome :=
  ctx ← bootstrap kw o;
  record (EvInvoke (obj ctx));;
  sub (obj ctx).

(** [datahub_actions(standalone_mode=False, **kwargs)], click's
    [Command.main]: the command line is parsed and the group invoked
    inside the [try] blocks of [Command_main_except]. *)
Definition click_main (kw : Kwargs) (o : Options) (cmd : Parsed)
  : Prog Outcome :=
  r ← match cmd with
      | Resolved sub => group_main kw o sub
      | Rejected e => mret (Raised e)
      end;
  Command_main_except r.

Definition trace_opts : FormatOpts :=
  mkFormatOpts MAX_CONTENT_WIDTH (10 * MAX_CONTENT_WIDTH)
    ["lib/python.*/site-packages/click/"] false.

Definition version_line : string :=
  "DataHub Actions version: " +:+ package_version rt +:+ " at " +:+ package_file rt.

Definition python_line : string :=
  "Python version: " +:+ sys_version rt +:+ " at " +:+ sys_executable rt
    +:+ " on " +:+ platform_platform rt.

(** The [except] clauses of [main], lines 143-165, tried in order. *)
Definition handle_exception (e : PyException) : Prog ProcessEnd :=
  if isinstance e Abort then
    sys_exit (PyInt 1)
  else if isinstance e ClickException then
    record (EvShow e);;
    sys_exit (PyInt 1)
  else if isinstance e Exception then
    record (EvFormat e trace_opts);;
    log_call Entrypoints ERROR (stackprinter_format e trace_opts);;
    log_call Entrypoints INFO version_line;;
    log_call Entrypoints INFO python_line;;
    sys_exit (PyInt 1)
  else
    mret (Uncaught e).

(** [main], lines 139-165. *)
Definition main (kw : Kwargs) (o : Options) (cmd : Parsed)
  : Prog ProcessEnd :=
  r ← click_main kw o cmd;
  match r with
  | Returned v => sys_exit v
  | Raised e => handle_exception e
  end.

End Entrypoints.

(** ** Derived notions used in the statements *)

(** The world after the group callback ran in a freshly imported module. *)
Definition bootstrapped (getenv : gmap string string -> string -> bool -> bool)
    (env : gmap string string) (kw : Kwargs) (o : Options) : World :=
  exec (bootstrap getenv kw o) (import_world env).

(** The condition of line 124 as a value. *)
Definition debug_enabled (getenv : gmap string string -> string -> bool -> bool)
    (env : gmap string string) (o : Options) : bool :=
  debug_of o || getenv env "DATAHUB_DEBUG" false.

(** The three sinks of the dedicated logger. *)
Definition stdout_sink : HandlerKind := StreamHandler stdout.
Definition stderr_sink : HandlerKind := StreamHandler stderr.
Definition file_sink : HandlerKind :=
  TimedRotatingFileHandler LOGGING_FILE_LOCATION "midnight" 1 10.

(** The handler objects attached to a logger, in attachment order. *)
Definition attached (st : Logging.State) (n : LoggerName) : list Handler :=
  flat_map (deref st) (lg_handlers (get st n)).

(** The logging state the callback is expected to leave, as a function of
    whether debug mode is on; [bootstrap_logging] shows that the callback
    computes exactly this. *)
Definition configured (dbg : bool) : Logging.State :=
  let low := if dbg then DEBUG else INFO in
  mkState
    [mkHandler (StreamHandler stderr) NOTSET [] (Some BASE_LOGGING_FORMAT);
     mkHandler stdout_sink low [mkLogFilter INFO] (Some BASE_LOGGING_FORMAT);
     mkHandler stderr_sink WARNING [] (Some BASE_LOGGING_FORMAT);
     mkHandler file_sink low [] (Some BASE_LOGGING_FORMAT)]
    (mkLogger (if dbg then INFO else WARNING) [0%nat] true)
    (mkLogger low [1%nat; 2%nat; 3%nat] false)
    (mkLogger NOTSET [] true).

(** The events of lines 102-122 (handlers built, attached, propagation
    off) and of the two branches of lines 124-131, as the callback is
    expected to issue them; [bootstrap_trace] shows that it does. *)
Definition setup_events : list Event :=
  [EvNew stdout_sink 1%nat;
   EvLogging (addFilter 1%nat (mkLogFilter INFO));
   EvLogging (Handler_setLevel 1%nat INFO);
   EvLogging (setFormatter 1%nat BASE_LOGGING_FORMAT);
   EvNew stderr_sink 2%nat;
   EvLogging (Handler_setLevel 2%nat WARNING);
   EvLogging (setFormatter 2%nat BASE_LOGGING_FORMAT);
   EvNew file_sink 3%nat;
   EvLogging (Handler_setLevel 3%nat INFO);
   EvLogging (setFormatter 3%nat BASE_LOGGING_FORMAT);
   EvLogging (addHandler DatahubActions 1%nat);
   EvLogging (addHandler DatahubActions 2%nat);
   EvLogging (addHandler DatahubActions 3%nat);
   EvLogging (set_propagate DatahubActions false)].

Definition level_events (dbg : bool) : list Event :=
  if dbg then
    [EvLogging (setLevel Root INFO);
     EvLogging (Handler_setLevel 1%nat DEBUG);
     EvLogging (Handler_setLevel 3%nat DEBUG);
     EvLogging (setLevel DatahubActions DEBUG)]
  else
    [EvLogging (setLevel Root WARNING);
     EvLogging (setLevel DatahubActions INFO)].

(** A logger that routes its records through the dedicated logger: the
    dedicated logger itself and the module logger below it. *)
Definition through_dedicated (n : LoggerName) : bool :=
  match n with Root => false | _ => true end.

(** A reading of the external helper, for concrete runs: an unset variable
    gives the default, and a set one is true exactly when it reads [true]. *)
Definition sample_getenv (env : gmap string string) (name : string) (dflt : bool) : bool :=
  match env !! name with
  | None => dflt
  | Some v => bool_decide (v = "true")
  end.

(** The thresholds of the handlers attached to a logger. *)
Definition thresholds (st : Logging.State) (n : LoggerName) : list (HandlerKind * Z) :=
  map (fun h => (h_kind h, h_level h)) (attached st n).

(** "The explicit flag takes precedence over the environment variable":
    whenever the user gives [--debug] or [--no-debug], the dedicated
    logger's threshold is the one the flag asks for. *)
Definition explicit_flag_takes_precedence
    (getenv : gmap string string -> string -> bool -> bool) : Prop :=
  forall env kw o b,
    opt_debug o = Some b ->
    lg_level (datahub_logger (logging (bootstrapped getenv env kw o)))
      = if b then DEBUG else INFO.

(** The root logger was reconfigured: the root logger record and every
    handler object may have changed in any way, except that the dedicated
    logger, the module logger and the handler objects attached to those two
    are the ones of [st]. *)
Definition root_reconfigured (st st' : Logging.State) : Prop :=
  datahub_logger st' = datahub_logger st /\
  logger st' = logger st /\
  forall h, h ∈ lg_handlers (datahub_logger st) ++ lg_handlers (logger st) ->
            store st' !! h = store st !! h.

(** Event classes singled out in the statements. *)
Definition is_env_read (e : Event) : bool :=
  match e with EvEnv _ => true | _ => false end.

Definition is_http_server (e : Event) : bool :=
  match e with EvHttpServer _ => true | _ => false end.

(** Events of the logging configuration: handlers built, configuration
    calls, and the read of the debug toggle that selects the levels. *)
Definition is_logging_setup (e : Event) : bool :=
  match e with
  | EvNew _ _ | EvLogging _ | EvEnv _ => true
  | _ => false
  end.

(** Sample collaborators and exceptions, for concrete runs. *)
Definition sample_format (e : PyException) (_ : FormatOpts) : string :=
  "Traceback: " +:+ exc_message e.

Definition sample_runtime : Runtime :=
  mkRuntime "0.0.0" "/site-packages/datahub_actions/__init__.py"
            "3.10.0" "/usr/bin/python3" "Linux".

Definition sub_return (v : PyVal) : SubCommand := fun _ w => (Returned v, w).
Definition sub_raise (e : PyException) : SubCommand := fun _ w => (Raised e, w).

Definition sample_abort : PyException :=
  mkExc [Abort; RuntimeError; Exception; BaseException] "" PyNone None.
Definition sample_abort_and_click : PyException :=
  mkExc [UserClass "Both"; Abort; RuntimeError; ClickException; Exception;
         BaseException] "both" PyNone None.
Definition sample_system_exit : PyException :=
  mkExc [SystemExit; BaseException] "" (PyInt 3) None.
Definition sample_value_error : PyException :=
  mkExc [UserClass "ValueError"; Exception; BaseException] "bad config" PyNone None.
Definition sample_interrupt : PyException :=
  mkExc [KeyboardInterrupt; BaseException] "" PyNone None.

(** The world with further events appended to its trace. *)
Definition then_events (w : World) (es : list Event) : World :=
  mkWorld (environ w) (logging w) (trace w ++ es).

(** A write of the module logger's record to a sink of the dedicated logger. *)
Definition emitted (sink : HandlerKind) (lvl : Z) (msg : string) : Event :=
  EvEmit (mkEmission sink (Some BASE_LOGGING_FORMAT)
            (mkRecord "datahub_actions.entrypoints" lvl msg)).

(** ** The callback in a process that has configured logging before

    The callback does not start from nothing when other code of the process
    configured the root logger first, or when the command is invoked more
    than once in one process.  The notions below describe its effect on an
    arbitrary logging state. *)

(** Every handler reference held by a logger points into the store. *)
Definition refs_in_store (st : Logging.State) : Prop :=
  Forall (fun h => (h < length (store st))%nat)
         (lg_handlers (root st) ++ lg_handlers (datahub_logger st)
            ++ lg_handlers (logger st)).

(** Nobody configured the dedicated logger or the module logger yet: both
    are as [logging.getLogger] creates them. *)
Definition untouched (st : Logging.State) : Prop :=
  datahub_logger st = mkLogger NOTSET [] true /\
  logger st = mkLogger NOTSET [] true.

(** Lines 102-131 of the callback as a function of the logging state and of
    the value of the condition of line 124; [bootstrap_setup] shows that
    this is what the callback does to the logging state. *)
Definition setup_logging (dbg : bool) (st : Logging.State) : Logging.State :=
  let datahub_logger := DatahubActions in
  let formatter := BASE_LOGGING_FORMAT in
  let '(info_handler, st) := new_handler (StreamHandler stdout) st in
  let st := apply (addFilter info_handler (mkLogFilter INFO)) st in
  let st := apply (Handler_setLevel info_handler INFO) st in
  let st := apply (setFormatter info_handler formatter) st in
  let '(error_handler, st) := new_handler (StreamHandler stderr) st in
  let st := apply (Handler_setLevel error_handler WARNING) st in
  let st := apply (setFormatter error_handler formatter) st in
  let '(file_handler, st) :=
    new_handler (TimedRotatingFileHandler LOGGING_FILE_LOCATION "midnight" 1 10) st in
  let st := apply (Handler_setLevel file_handler INFO) st in
  let st := apply (setFormatter file_handler formatter) st in
  let st := apply (addHandler datahub_logger info_handler) st in
  let st := apply (addHandler datahub_logger error_handler) st in
  let st := apply (addHandler datahub_logger file_handler) st in
  let st := apply (set_propagate datahub_logger false) st in
  if dbg then
    let st := apply (setLevel Root INFO) st in
    let st := apply (Handler_setLevel info_handler DEBUG) st in
    let st := apply (Handler_setLevel file_handler DEBUG) st in
    apply (setLevel datahub_logger DEBUG) st
  else
    let st := apply (setLevel Root WARNING) st in
    apply (setLevel datahub_logger INFO) st.

(** The three handler objects one run of the callback leaves in the store. *)
Definition installed (dbg : bool) : list Handler :=
  let low := if dbg then DEBUG else INFO in
  [mkHandler stdout_sink low [mkLogFilter INFO] (Some BASE_LOGGING_FORMAT);
   mkHandler stderr_sink WARNING [] (Some BASE_LOGGING_FORMAT);
   mkHandler file_sink low [] (Some BASE_LOGGING_FORMAT)].

(** The state the callback is expected to leave when it starts from [st]:
    three more handler objects, referenced by the dedicated logger after
    the handlers it had, the two logger thresholds overwritten, propagation
    off; [setup_logging_fresh] shows that the callback computes this. *)
Definition configured_from (st : Logging.State) (dbg : bool) : Logging.State :=
  let n := length (store st) in
  mkState
    (store st ++ installed dbg)
    (mkLogger (if dbg then INFO else WARNING)
              (lg_handlers (root st)) (lg_propagate (root st)))
    (mkLogger (if dbg then DEBUG else INFO)
              (lg_handlers (datahub_logger st) ++ [n; S n; S (S n)]) false)
    (logger st).

(** The group callback run once per command line of [calls], in order, in
    one process. *)
Fixpoint runs (getenv : gmap string string -> string -> bool -> bool)
    (w : World) (calls : list (Kwargs * Options)) : World :=
  match calls with
  | [] => w
  | (kw, o) :: rest => runs getenv (exec (bootstrap getenv kw o) w) rest
  end.

(** What [n] runs of the callback make of one INFO record. *)
Definition written_per_run (n : nat) : list HandlerKind :=
  concat (repeat [stdout_sink; file_sink] n).

(** The logging configuration is the one the import left as far as the
    module logger can tell: the root logger at WARNING with the handler of
    [logging.basicConfig], and nothing attached below it. *)
Definition import_config_only (st : Logging.State) : Prop :=
  root st = mkLogger WARNING [0%nat] true /\
  store st !! 0%nat
    = Some (mkHandler stderr_sink NOTSET [] (Some BASE_LOGGING_FORMAT)) /\
  untouched st.

(** Events that put something in front of the user: a logging call, a
    handler's write, a message shown or printed, a formatted trace. *)
Definition is_output (e : Event) : bool :=
  match e with
  | EvLog _ _ _ | EvEmit _ | EvShow _ | EvPrint _ _ | EvFormat _ _ => true
  | _ => false
  end.

(** A world whose logging state was configured by other code: the root
    logger at DEBUG with two handlers of its own. *)
Definition sample_host_world : World :=
  mkWorld ∅
    (mkState [mkHandler stderr_sink NOTSET [] None;
              mkHandler stdout_sink ERROR [] (Some "%(message)s")]
             (mkLogger DEBUG [0%nat; 1%nat] true)
             (mkLogger NOTSET [] true)
             (mkLogger NOTSET [] true))
    [].

(** Unfolds the sequencing of the callback down to the calls it makes,
    leaving the logging operations themselves unevaluated, so that the one
    value the run depends on, the environment toggle, shows in the goal. *)
Ltac plumbing :=
  cbv beta iota zeta delta
    [bootstrapped bootstrap exec result fst snd mbind mret Prog_bind Prog_ret
     datahub_actions new call record getenv_bool por start_http_server
     new_handler environ logging trace import_world debug_enabled
     enable_monitoring_of monitoring_port_of debug_of detect_memory_leaks_of
     opt_enable_monitoring opt_monitoring_port opt_debug
     opt_detect_memory_leaks default id].

Ltac run_bootstrap o :=
  destruct o as [[|] [?|] [[|]|] ?]; plumbing;
  try destruct (_ _ "DATAHUB_DEBUG" false); vm_compute; reflexivity.

Section Bootstrap_facts.

Variable getenv : gmap string string -> string -> bool -> bool.

Lemma trace_then_events w es : trace (then_events w es) = trace w ++ es.
Proof. reflexivity. Qed.

Lemma logging_then_events w es : logging (then_events w es) = logging w.
Proof. reflexivity. Qed.

(** An event of a class that no element of a list belongs to is not in
    the list. *)
Lemma not_elem_of_class (f : Event -> bool) (e : Event) (l : list Event) :
  f e = true -> forallb (fun x => negb (f x)) l = true -> e ∉ l.
Proof.
  intros Hf Hall Hin. apply list_elem_of_In in Hin.
  rewrite forallb_forall in Hall. specialize (Hall e Hin).
  rewrite Hf in Hall. discriminate Hall.
Qed.

Lemma bootstrap_logging env kw o :
  logging (bootstrapped getenv env kw o) = configured (debug_enabled getenv env o).
Proof. run_bootstrap o. Qed.

Lemma bootstrap_trace env kw o :
  trace (bootstrapped getenv env kw o) =
    setup_events
      ++ (if debug_of o then [] else [EvEnv "DATAHUB_DEBUG"])
      ++ level_events (debug_enabled getenv env o)
      ++ (if enable_monitoring_of o
          then [EvHttpServer (monitoring_port_of o)] else []).
Proof. run_bootstrap o. Qed.

Lemma bootstrap_context env kw o :
  result (bootstrap getenv kw o) (import_world env) =
    setitem (ensure_object (mkContext (kw_obj kw))) "detect_memory_leaks"
            (PyBool (opt_detect_memory_leaks o)).
Proof.
  destruct o as [[|] [?|] [[|]|] ?]; plumbing;
    try destruct (_ _ "DATAHUB_DEBUG" false); exact eq_refl.
Qed.

Lemma bootstrap_environ env kw o :
  environ (bootstrapped getenv env kw o) = env.
Proof. run_bootstrap o. Qed.

(** The dispatch: the sub-command runs in the bootstrapped world, after
    the invocation was recorded. *)
Lemma group_main_run env kw o sub :
  group_main getenv kw o sub (import_world env) =
    let ctx := result (bootstrap getenv kw o) (import_world env) in
    sub (obj ctx) (then_events (bootstrapped getenv env kw o) [EvInvoke (obj ctx)]).
Proof.
  unfold group_main, bootstrapped, exec, result, then_events, mbind, Prog_bind, record.
  destruct (bootstrap getenv kw o (import_world env)) as [ctx w]. reflexivity.
Qed.

(** What the module logger's ERROR and INFO calls write once the
    bootstrap ran. *)
Lemma log_error_configured dbg msg :
  Logging.log (configured dbg) Entrypoints ERROR msg =
    [mkEmission stderr_sink (Some BASE_LOGGING_FORMAT)
       (mkRecord "datahub_actions.entrypoints" ERROR msg);
     mkEmission file_sink (Some BASE_LOGGING_FORMAT)
       (mkRecord "datahub_actions.entrypoints" ERROR msg)].
Proof. destruct dbg; vm_compute; reflexivity. Qed.

Lemma log_info_configured dbg msg :
  Logging.log (configured dbg) Entrypoints INFO msg =
    [mkEmission stdout_sink (Some BASE_LOGGING_FORMAT)
       (mkRecord "datahub_actions.entrypoints" INFO msg);
     mkEmission file_sink (Some BASE_LOGGING_FORMAT)
       (mkRecord "datahub_actions.entrypoints" INFO msg)].
Proof. destruct dbg; vm_compute; reflexivity. Qed.

(** Closed form of the sinks a record reaches once the bootstrap ran. *)
Lemma sinks_configured dbg n lvl msg :
  through_dedicated n = true ->
  sinks (configured dbg) n lvl msg =
    if (if dbg then DEBUG else INFO) <=? lvl then
      (if lvl <=? INFO then [stdout_sink] else [])
        ++ (if WARNING <=? lvl then [stderr_sink] else [])
        ++ [file_sink]
    else [].
Proof.
  intros Hn.
  destruct n; [discriminate | |];
    destruct dbg;
    cbv -[Z.leb];
    destruct (Z.leb_spec lvl 0), (Z.leb_spec 10 lvl), (Z.leb_spec 20 lvl),
      (Z.leb_spec 30 lvl), (Z.leb_spec lvl 20); cbn; try reflexivity; lia.
Qed.

End Bootstrap_facts.

(** ** The severity policy (C1) *)

Example no_debug_with_env_toggle :
  let o := mkOptions false None (Some false) false in
  let st := logging (bootstrapped sample_getenv {["DATAHUB_DEBUG" := "true"]}
                       (mkKwargs ObjNone) o) in
  lg_level (root st) = INFO /\ lg_level (datahub_logger st) = DEBUG.
Proof. vm_compute. split; reflexivity. Qed.

(** C1, as stated, fails: with [--no-debug] on the command line and
    [DATAHUB_DEBUG=true] in the environment the callback still switches to
    the debug thresholds, so an explicit flag does not always win. *)
Lemma explicit_no_debug_loses_to_environment :
  ~ explicit_flag_takes_precedence sample_getenv.
Proof.
  intros H.
  specialize (H {["DATAHUB_DEBUG" := "true"]} (mkKwargs ObjNone)
                (mkOptions false None (Some false) false) false eq_refl).
  destruct no_debug_with_env_toggle as [_ Hd].
  cbv zeta in Hd. rewrite Hd in H. discriminate H.
Qed.

(** C1, amended: for every flag and environment the thresholds follow the
    table, where debug mode is on exactly when [--debug] was passed or,
    failing that (also under [--no-debug]), the environment toggle is true;
    the toggle is read exactly when [--debug] was not passed. *)
Theorem severity_policy getenv env kw o :
  let w := bootstrapped getenv env kw o in
  let st := logging w in
  (if debug_enabled getenv env o then
     lg_level (root st) = INFO /\
     lg_level (datahub_logger st) = DEBUG /\
     thresholds st DatahubActions
       = [(stdout_sink, DEBUG); (stderr_sink, WARNING); (file_sink, DEBUG)]
   else
     lg_level (root st) = WARNING /\
     lg_level (datahub_logger st) = INFO /\
     thresholds st DatahubActions
       = [(stdout_sink, INFO); (stderr_sink, WARNING); (file_sink, INFO)]) /\
  debug_enabled getenv env o
    = match opt_debug o with
      | Some true => true
      | _ => getenv env "DATAHUB_DEBUG" false
      end /\
  (EvEnv "DATAHUB_DEBUG" ∈ trace w <-> opt_debug o <> Some true).
Proof.
  cbv zeta. rewrite bootstrap_logging. split; [|split].
  - destruct (debug_enabled getenv env o); repeat split; reflexivity.
  - unfold debug_enabled, debug_of. destruct (opt_debug o) as [[|]|]; reflexivity.
  - rewrite bootstrap_trace. unfold debug_of.
    destruct (opt_debug o) as [[|]|]; cbn [default id].
    + split; [|congruence]. intros Hin. exfalso. revert Hin.
      apply (not_elem_of_class is_env_read); [reflexivity|].
      destruct (debug_enabled getenv env o), (enable_monitoring_of o); reflexivity.
    + split; [congruence|]. intros _.
      apply elem_of_app. right. apply elem_of_app. left.
      apply elem_of_cons. left. reflexivity.
    + split; [congruence|]. intros _.
      apply elem_of_app. right. apply elem_of_app. left.
      apply elem_of_cons. left. reflexivity.
Qed.

(** ** Routing by severity (C2) *)

(** C2: a record logged through the dedicated logger at INFO or below
    goes to no sink other than standard output and the file, and never to
    standard error; a record at WARNING or above goes to no sink other than
    standard error and the file, and never to standard output.  The sinks
    are not idle: a WARNING-or-above record is written to exactly standard
    error and the file, an INFO record to exactly standard output and the
    file. *)
Theorem severity_routing getenv env kw o n lvl msg :
  through_dedicated n = true ->
  let out := sinks (logging (bootstrapped getenv env kw o)) n lvl msg in
  (lvl <= INFO ->
     (forall s, s ∈ out -> s = stdout_sink \/ s = file_sink) /\ stderr_sink ∉ out) /\
  (WARNING <= lvl ->
     (forall s, s ∈ out -> s = stderr_sink \/ s = file_sink) /\ stdout_sink ∉ out) /\
  (WARNING <= lvl -> out = [stderr_sink; file_sink]) /\
  (lvl = INFO -> out = [stdout_sink; file_sink]).
Proof.
  intros Hn. cbv zeta. rewrite bootstrap_logging, (sinks_configured _ _ _ _ Hn).
  unfold DEBUG, INFO, WARNING.
  repeat split; try intros s; intros;
    destruct (debug_enabled getenv env o);
    destruct (Z.leb_spec 10 lvl), (Z.leb_spec 20 lvl), (Z.leb_spec 30 lvl),
      (Z.leb_spec lvl 20); try lia;
    cbn [app] in *; try reflexivity;
    rewrite ?elem_of_cons, ?elem_of_nil in *;
    intuition (try discriminate; auto).
Qed.

Lemma severity_routing_witness :
  stderr_sink ∉ sinks (logging (bootstrapped sample_getenv ∅ (mkKwargs ObjNone)
                                  (mkOptions false None None false)))
                      DatahubActions INFO "started".
Proof.
  apply (proj1 (severity_routing sample_getenv ∅ (mkKwargs ObjNone)
                  (mkOptions false None None false) DatahubActions INFO "started"
                  eq_refl)).
  unfold INFO. lia.
Defined.

(** ** Isolation from the root logger (C7) *)

Section Isolation.

Lemma logger_emits_agree st st' l r :
  (forall h, h ∈ lg_handlers l -> store st' !! h = store st !! h) ->
  logger_emits st' l r = logger_emits st l r.
Proof.
  unfold logger_emits.
  induction (lg_handlers l) as [|h hs IH]; intros Hs; [reflexivity|].
  cbn [flat_map]. unfold deref at 1 3.
  rewrite (Hs h) by (apply elem_of_cons; left; reflexivity).
  rewrite IH; [reflexivity|].
  intros h' Hin. apply Hs, elem_of_cons. right. exact Hin.
Qed.

(** A logger that does not propagate and has a level of its own, and
    the logger below it, emit the same whatever the root logger is. *)
Lemma isolation st st' n lvl msg :
  root_reconfigured st st' ->
  lg_propagate (datahub_logger st) = false ->
  lg_level (datahub_logger st) <> 0 ->
  through_dedicated n = true ->
  Logging.log st' n lvl msg = Logging.log st n lvl msg.
Proof.
  intros (Hd & Hl & Hs) Hp Hlv Hn.
  assert (Ed : forall r, logger_emits st' (datahub_logger st) r
                         = logger_emits st (datahub_logger st) r).
  { intros r. apply logger_emits_agree. intros h Hin.
    apply Hs, elem_of_app. left. exact Hin. }
  assert (El : forall r, logger_emits st' (logger st) r
                         = logger_emits st (logger st) r).
  { intros r. apply logger_emits_agree. intros h Hin.
    apply Hs, elem_of_app. right. exact Hin. }
  destruct n; [discriminate Hn | |];
    unfold Logging.log, isEnabledFor, getEffectiveLevel, callHandlers;
    cbn [chain first_level walk get];
    rewrite ?Hd, ?Hl, ?Hp, ?Ed, ?El;
    destruct (Z.eqb_spec (lg_level (datahub_logger st)) 0) as [E0|_];
    try (exfalso; exact (Hlv E0)); reflexivity.
Qed.

(** Configuration calls on the root logger, handler constructors, and
    level changes of handlers that are not attached to the dedicated or
    the module logger are such reconfigurations. *)
Lemma root_op_reconfigures st o :
  match o with
  | addHandler Root _ | set_propagate Root _ | setLevel Root _ => True
  | Handler_setLevel h _ | addFilter h _ | setFormatter h _ =>
      h ∉ lg_handlers (datahub_logger st) ++ lg_handlers (logger st)
  | _ => False
  end ->
  root_reconfigured st (apply o st).
Proof.
  destruct o as [h f|h l|h f|[| |] h|[| |] b|[| |] l]; cbn; intros H;
    try contradiction;
    try (unfold update_handler; destruct (store st !! h) eqn:E; cbn;
         repeat split; try reflexivity; intros h' Hin;
         apply list_lookup_insert_ne; intros ->; exact (H Hin));
    repeat split; reflexivity.
Qed.

End Isolation.

(** Had propagation been left on, the root logger's handlers would see
    the dedicated logger's records: an INFO record would also reach the
    root's stderr handler. *)
Example propagation_would_leak :
  let st := apply (set_propagate DatahubActions true) (configured false) in
  sinks st DatahubActions INFO "m" = [stdout_sink; file_sink; stderr_sink]
  /\ sinks (apply (Handler_setLevel 0%nat WARNING) st) DatahubActions INFO "m"
     = [stdout_sink; file_sink].
Proof. vm_compute. split; reflexivity. Qed.

(** C7: after the bootstrap the dedicated logger does not propagate, and
    whatever the root logger and its handlers are changed to afterwards,
    every logging call through the dedicated logger emits exactly what it
    emitted before the change. *)
Theorem root_changes_do_not_reach_dedicated getenv env kw o st' n lvl msg :
  let st := logging (bootstrapped getenv env kw o) in
  root_reconfigured st st' ->
  through_dedicated n = true ->
  lg_propagate (datahub_logger st) = false /\
  Logging.log st' n lvl msg = Logging.log st n lvl msg.
Proof.
  cbv zeta. rewrite bootstrap_logging. intros Hr Hn.
  split; [reflexivity|].
  apply isolation; try assumption; try reflexivity.
  cbn. destruct (debug_enabled getenv env o); discriminate.
Qed.

Lemma root_changes_do_not_reach_dedicated_witness :
  let st := logging (bootstrapped sample_getenv ∅ (mkKwargs ObjNone)
                       (mkOptions false None None false)) in
  let st' := apply (setLevel Root CRITICAL) (apply (Handler_setLevel 0%nat WARNING) st) in
  lg_propagate (datahub_logger st) = false /\
  Logging.log st' Entrypoints ERROR "boom" = Logging.log st Entrypoints ERROR "boom".
Proof.
  cbv zeta.
  apply (root_changes_do_not_reach_dedicated sample_getenv ∅ (mkKwargs ObjNone)
           (mkOptions false None None false)).
  - vm_compute. repeat split.
    intros h Hin. apply list_elem_of_In in Hin. cbn in Hin.
    destruct Hin as [<-|[<-|[<-|[]]]]; reflexivity.
  - reflexivity.
Defined.

(** ** What debug mode changes (C9) *)

(** C9: the logging state of a debug run is the state of a non-debug run
    with four thresholds changed and nothing else: the root logger's, the
    stdout handler's, the file handler's and the dedicated logger's.  The
    stderr handler stays at WARNING, so a record below WARNING never
    reaches standard error, also in debug mode. *)
Theorem debug_mode_frame getenv env env' kw kw' o o' :
  debug_enabled getenv env o = true ->
  debug_enabled getenv env' o' = false ->
  let st := logging (bootstrapped getenv env kw o) in
  let st0 := logging (bootstrapped getenv env' kw' o') in
  st = apply (setLevel DatahubActions DEBUG)
         (apply (Handler_setLevel 3%nat DEBUG)
            (apply (Handler_setLevel 1%nat DEBUG)
               (apply (setLevel Root INFO) st0))) /\
  h_kind <$> store st0 !! 1%nat = Some stdout_sink /\
  h_kind <$> store st0 !! 3%nat = Some file_sink /\
  thresholds st0 DatahubActions
    = [(stdout_sink, INFO); (stderr_sink, WARNING); (file_sink, INFO)] /\
  thresholds st DatahubActions
    = [(stdout_sink, DEBUG); (stderr_sink, WARNING); (file_sink, DEBUG)] /\
  forall n lvl msg,
    through_dedicated n = true -> lvl < WARNING ->
    stderr_sink ∉ sinks st n lvl msg.
Proof.
  intros Hon Hoff. cbv zeta. rewrite !bootstrap_logging, Hon, Hoff.
  repeat (split; [vm_compute; reflexivity|]).
  intros n lvl msg Hn Hl. rewrite (sinks_configured true _ _ _ Hn).
  unfold DEBUG, INFO, WARNING in *.
  destruct (Z.leb_spec 10 lvl), (Z.leb_spec 30 lvl), (Z.leb_spec lvl 20);
    try lia; cbn [app];
    rewrite ?elem_of_cons, ?elem_of_nil;
    intuition discriminate.
Qed.

Lemma debug_mode_frame_witness :
  stderr_sink ∉ sinks (logging (bootstrapped sample_getenv ∅ (mkKwargs ObjNone)
                                  (mkOptions false None (Some true) false)))
                      DatahubActions DEBUG "detail".
Proof.
  refine (proj2 (proj2 (proj2 (proj2 (proj2
    (debug_mode_frame sample_getenv ∅ ∅ (mkKwargs ObjNone) (mkKwargs ObjNone)
       (mkOptions false None (Some true) false)
       (mkOptions false None None false) _ _)))))
    DatahubActions DEBUG "detail" eq_refl _).
  - reflexivity.
  - reflexivity.
  - unfold DEBUG, WARNING. lia.
Defined.

(** ** Standard output outside debug mode (C10) *)

(** C10: without debug mode the stdout handler (threshold INFO, filter
    letting through INFO and below) writes exactly the records at INFO,
    and a record below INFO is written nowhere, the dedicated logger's
    threshold being INFO. *)
Theorem quiet_mode_stdout getenv env kw o n lvl msg :
  debug_enabled getenv env o = false ->
  through_dedicated n = true ->
  let st := logging (bootstrapped getenv env kw o) in
  attached st DatahubActions !! 0%nat
    = Some (mkHandler stdout_sink INFO [mkLogFilter INFO] (Some BASE_LOGGING_FORMAT)) /\
  getEffectiveLevel st n = INFO /\
  (stdout_sink ∈ sinks st n lvl msg <-> lvl = INFO) /\
  (lvl < INFO -> sinks st n lvl msg = []).
Proof.
  intros Hoff Hn. cbv zeta. rewrite bootstrap_logging, Hoff.
  split; [reflexivity|]. split; [destruct n; [discriminate Hn| |]; reflexivity|].
  rewrite (sinks_configured false _ _ _ Hn). unfold INFO, WARNING.
  destruct (Z.leb_spec 20 lvl), (Z.leb_spec 30 lvl), (Z.leb_spec lvl 20);
    try lia; cbn [app]; (split; [|intros; try reflexivity; lia]);
    rewrite ?elem_of_cons, ?elem_of_nil; split;
    intuition (try discriminate; try lia).
Qed.

Lemma quiet_mode_stdout_witness :
  sinks (logging (bootstrapped sample_getenv ∅ (mkKwargs ObjNone)
                    (mkOptions false None (Some false) false)))
        Entrypoints DEBUG "detail" = [].
Proof.
  refine (proj2 (proj2 (proj2
    (quiet_mode_stdout sample_getenv ∅ (mkKwargs ObjNone)
       (mkOptions false None (Some false) false)
       Entrypoints DEBUG "detail" _ _))) _).
  - reflexivity.
  - reflexivity.
  - unfold DEBUG, INFO. lia.
Defined.

(** ** The three sinks and the rotating file (C6) *)

Section Rotation.

Lemma doRollover_bound bc backups day :
  0 < bc -> (length (doRollover bc backups day) <= Z.to_nat bc)%nat.
Proof.
  intros Hbc. unfold doRollover, getFilesToDelete.
  set (kept := List.filter _ backups ++ [day]).
  destruct (Z.ltb_spec 0 bc) as [_|]; [|lia].
  destruct (Z.ltb_spec (Z.of_nat (length kept)) bc) as [Hlt|Hge].
  - rewrite length_drop. cbn [length]. lia.
  - rewrite length_drop, length_take. lia.
Qed.

Lemma after_midnights_bound bc days : forall backups,
  0 < bc ->
  (length backups <= Z.to_nat bc)%nat ->
  (length (after_midnights bc backups days) <= Z.to_nat bc)%nat.
Proof.
  unfold after_midnights.
  induction days as [|d days IH]; intros backups Hbc Hlen; cbn [fold_left].
  - exact Hlen.
  - apply IH; [exact Hbc|]. apply doRollover_bound. exact Hbc.
Qed.

(** The newest backup is always kept. *)
Lemma doRollover_keeps_newest bc backups day :
  0 < bc -> last (doRollover bc backups day) = Some day.
Proof.
  intros Hbc. unfold doRollover, getFilesToDelete.
  set (pre := List.filter _ backups).
  destruct (Z.ltb_spec 0 bc) as [_|]; [|lia].
  destruct (Z.ltb_spec (Z.of_nat (length (pre ++ [day]))) bc) as [Hlt|Hge].
  - cbn [length drop]. apply last_snoc.
  - rewrite length_take, length_app in *. cbn [length] in *.
    rewrite drop_app_le by lia. apply last_snoc.
Qed.

End Rotation.

(** C6: the bootstrap attaches exactly three handlers to the dedicated
    logger, in this order: stdout, stderr, file.  The file handler is a
    [TimedRotatingFileHandler] on [/tmp/datahub/logs/actions/actions.out]
    rotating at midnight with [backupCount] 10, it accepts a record exactly
    when the record's level is at least INFO (DEBUG in debug mode), and
    after any run of midnights at most 10 backups remain. *)
Theorem logging_setup_sinks getenv env kw o :
  let st := logging (bootstrapped getenv env kw o) in
  let low := if debug_enabled getenv env o then DEBUG else INFO in
  let file_handler := mkHandler file_sink low [] (Some BASE_LOGGING_FORMAT) in
  lg_handlers (datahub_logger st) = [1%nat; 2%nat; 3%nat] /\
  attached st DatahubActions =
    [mkHandler stdout_sink low [mkLogFilter INFO] (Some BASE_LOGGING_FORMAT);
     mkHandler stderr_sink WARNING [] (Some BASE_LOGGING_FORMAT);
     file_handler] /\
  file_sink = TimedRotatingFileHandler "/tmp/datahub/logs/actions/actions.out"
                                       "midnight" 1 10 /\
  (forall r, handle_one file_handler r <> [] <-> low <= levelno r) /\
  (forall days,
     (length (after_midnights (backupCount_of file_sink) [] days) <= 10)%nat).
Proof.
  cbv zeta. rewrite bootstrap_logging.
  split; [reflexivity|].
  split; [destruct (debug_enabled getenv env o); reflexivity|].
  split; [reflexivity|].
  split.
  - intros r. unfold handle_one, Filterer_filter. cbn [h_level h_filters forallb].
    rewrite andb_true_r.
    destruct (Z.leb_spec (if debug_enabled getenv env o then DEBUG else INFO)
                (levelno r)); split; intros H'; try congruence; try lia.
  - intros days.
    apply (after_midnights_bound 10 days []); cbn; lia.
Qed.

(** ** The metrics listener (C5) *)

(** C5: the sub-command is dispatched in a world whose trace is the
    logging configuration, then the listener start on the port of
    [--monitoring-port] (8000 when not given) if and only if
    [--enable-monitoring] was given, then the dispatch itself; by then the
    logging state is the configured one, and without the flag no listener
    start occurs at all. *)
Theorem metrics_listener getenv env kw o sub :
  exists ctx w config,
    group_main getenv kw o sub (import_world env) = sub (obj ctx) w /\
    trace w = config
              ++ (if opt_enable_monitoring o
                  then [EvHttpServer (default 8000 (opt_monitoring_port o))]
                  else [])
              ++ [EvInvoke (obj ctx)] /\
    forallb is_logging_setup config = true /\
    logging w = configured (debug_enabled getenv env o) /\
    (forall p, EvHttpServer p ∈ trace w <->
               opt_enable_monitoring o = true /\
               p = default 8000 (opt_monitoring_port o)).
Proof.
  rewrite group_main_run. cbv zeta.
  generalize (result (bootstrap getenv kw o) (import_world env)). intros ctx.
  pose proof (bootstrap_trace getenv env kw o) as Ht.
  pose proof (bootstrap_logging getenv env kw o) as Hl.
  revert Ht Hl. generalize (bootstrapped getenv env kw o). intros w1 Ht Hl.
  unfold enable_monitoring_of, monitoring_port_of in Ht.
  exists ctx, (then_events w1 [EvInvoke (obj ctx)]),
    (setup_events
       ++ (if debug_of o then [] else [EvEnv "DATAHUB_DEBUG"])
       ++ level_events (debug_enabled getenv env o)).
  rewrite trace_then_events, logging_then_events, Ht, <- !app_assoc.
  split; [reflexivity|]. split; [reflexivity|].
  split; [destruct (debug_of o), (debug_enabled getenv env o); reflexivity|].
  split; [exact Hl|].
  intros p. rewrite !elem_of_app. split.
  - intros [Hin|[Hin|[Hin|[Hin|Hin]]]].
    + exfalso. revert Hin.
      apply (not_elem_of_class is_http_server); reflexivity.
    + exfalso. revert Hin.
      apply (not_elem_of_class is_http_server); [reflexivity|].
      destruct (debug_of o); reflexivity.
    + exfalso. revert Hin.
      apply (not_elem_of_class is_http_server); [reflexivity|].
      destruct (debug_enabled getenv env o); reflexivity.
    + destruct (opt_enable_monitoring o).
      * apply elem_of_cons in Hin as [Hin|Hin].
        -- injection Hin as ->. split; reflexivity.
        -- apply elem_of_nil in Hin. contradiction.
      * apply elem_of_nil in Hin. contradiction.
    + exfalso. revert Hin.
      apply (not_elem_of_class is_http_server); reflexivity.
  - intros [Hm ->]. rewrite Hm. right. right. right. left.
    apply elem_of_cons. left. reflexivity.
Qed.

(** ** The invocation context (C8) *)

(** When [main] is given a dict as [obj], the flag is added to it and its
    other entries stay. *)
Lemma invocation_context_given_dict getenv env kw o sub d0 :
  kw_obj kw = ObjDict d0 ->
  exists w,
    group_main getenv kw o sub (import_world env)
      = sub (ObjDict (<["detect_memory_leaks" := PyBool (opt_detect_memory_leaks o)]> d0)) w.
Proof.
  intros Hd. rewrite group_main_run, bootstrap_context. cbv zeta.
  unfold ensure_object, setitem. cbn [obj]. rewrite Hd. cbn [obj].
  eexists. reflexivity.
Qed.

(** C8: when [main] is not handed a context dict of its own (the console
    entry point calls it without arguments), the sub-command receives a
    dict with exactly one entry, ["detect_memory_leaks"], whose value is
    the [--detect-memory-leaks] flag (false when the flag is absent). *)
Theorem invocation_context getenv env kw o sub :
  (forall d0, kw_obj kw <> ObjDict d0) ->
  let d : gmap string PyVal :=
    {["detect_memory_leaks" := PyBool (opt_detect_memory_leaks o)]} in
  (exists w,
     group_main getenv kw o sub (import_world env) = sub (ObjDict d) w /\
     last (trace w) = Some (EvInvoke (ObjDict d))) /\
  d !! "detect_memory_leaks" = Some (PyBool (opt_detect_memory_leaks o)) /\
  dom d = {["detect_memory_leaks"]} /\
  size d = 1%nat.
Proof.
  intros Hk. cbv zeta. split; [|split; [|split]].
  - rewrite group_main_run, bootstrap_context. cbv zeta.
    unfold ensure_object, setitem. cbn [obj].
    destruct (kw_obj kw) as [|d0|v] eqn:E; cbn [obj];
      try (exfalso; exact (Hk d0 eq_refl));
      rewrite insert_empty; eexists; (split; [reflexivity|]);
      cbn [then_events trace]; apply last_snoc.
  - apply lookup_singleton_eq.
  - apply dom_singleton_L.
  - apply map_size_singleton.
Qed.

Lemma invocation_context_witness :
  exists w,
    group_main sample_getenv (mkKwargs ObjNone) (mkOptions false None None true)
               (sub_return PyNone) (import_world ∅)
      = sub_return PyNone (ObjDict {["detect_memory_leaks" := PyBool true]}) w /\
    last (trace w) = Some (EvInvoke (ObjDict {["detect_memory_leaks" := PyBool true]})).
Proof.
  refine (proj1 (invocation_context sample_getenv ∅ (mkKwargs ObjNone)
                   (mkOptions false None None true) (sub_return PyNone) _)).
  intros d0. discriminate.
Defined.

(** The ancestor chain is the walk along [Logger.parent]. *)
Lemma chain_parent n :
  chain n = n :: match parent n with Some p => chain p | None => [] end.
Proof. destruct n; reflexivity. Qed.

(** ** Exit codes (C3) *)

Section Exit_codes.

Variable getenv : gmap string string -> string -> bool -> bool.
Variable fmt : PyException -> FormatOpts -> string.
Variable rt : Runtime.

(** [main] is the dispatch followed by the exit of the [try] body or by
    the [except] clauses. *)
Lemma main_run kw o cmd w0 r w1 :
  click_main getenv kw o cmd w0 = (r, w1) ->
  main getenv fmt rt kw o cmd w0 =
    match r with
    | Returned v => sys_exit v w1
    | Raised e => handle_exception fmt rt e w1
    end.
Proof.
  intros H. unfold main, mbind, Prog_bind. rewrite H. destruct r; reflexivity.
Qed.

(** With the command resolved, what click hands to [main] is what its
    [except] clauses make of the invocation's outcome. *)
Lemma click_main_resolved kw o sub w0 :
  click_main getenv kw o (Resolved sub) w0 =
    Command_main_except (fst (group_main getenv kw o sub w0))
                        (snd (group_main getenv kw o sub w0)).
Proof.
  unfold click_main, mbind, Prog_bind.
  destruct (group_main getenv kw o sub w0) as [r w1]. reflexivity.
Qed.

(** An outcome that click's [except] clauses pass on as it is: a return
    value, or an exception of none of the classes they convert. *)
Lemma Command_main_except_passes e w :
  isinstance e EOFError = false ->
  isinstance e KeyboardInterrupt = false ->
  isinstance e OSError = false ->
  isinstance e ClickExit = false ->
  Command_main_except (Raised e) w = (Raised e, w).
Proof.
  intros Hf Hk Ho Hx. unfold Command_main_except, mbind, Prog_bind, mret, Prog_ret.
  rewrite Hf, Hk, Ho. cbn [orb].
  destruct (isinstance e ClickException); rewrite Hx; reflexivity.
Qed.

(** A class list closed under base classes holds the bases of each of
    its classes. *)
Lemma hierarchy_closed e c b :
  follows_hierarchy e = true -> c ∈ exc_mro e -> b ∈ bases c -> b ∈ exc_mro e.
Proof.
  unfold follows_hierarchy. rewrite forallb_forall. intros H Hc Hb.
  apply list_elem_of_In in Hc. specialize (H c Hc).
  rewrite forallb_forall in H. apply list_elem_of_In in Hb.
  specialize (H b Hb). apply bool_decide_eq_true in H. exact H.
Qed.

(** No subclass of [Exception] is among the classes of an exception that
    is no [Exception]. *)
Lemma outside_Exception e :
  follows_hierarchy e = true ->
  isinstance e Exception = false ->
  isinstance e EOFError = false /\ isinstance e OSError = false /\
  isinstance e ClickException = false /\ isinstance e Abort = false /\
  isinstance e ClickExit = false.
Proof.
  unfold isinstance. intros Hh He. apply bool_decide_eq_false in He.
  assert (Hr : RuntimeError ∉ exc_mro e).
  { intros Hin. apply He.
    apply (hierarchy_closed e RuntimeError Exception Hh Hin).
    apply elem_of_cons. left. reflexivity. }
  repeat split; apply bool_decide_eq_false; intros Hin.
  - apply He. apply (hierarchy_closed e EOFError Exception Hh Hin).
    apply elem_of_cons. left. reflexivity.
  - apply He. apply (hierarchy_closed e OSError Exception Hh Hin).
    apply elem_of_cons. left. reflexivity.
  - apply He. apply (hierarchy_closed e ClickException Exception Hh Hin).
    apply elem_of_cons. left. reflexivity.
  - apply Hr. apply (hierarchy_closed e Abort RuntimeError Hh Hin).
    apply elem_of_cons. left. reflexivity.
  - apply Hr. apply (hierarchy_closed e ClickExit RuntimeError Hh Hin).
    apply elem_of_cons. left. reflexivity.
Qed.




(** An exception outside [Exception] (a [SystemExit] raised below, say)
    is not caught by [main]. *)
Lemma handle_base_exception e w :
  isinstance e Abort = false ->
  isinstance e ClickException = false ->
  isinstance e Exception = false ->
  handle_exception fmt rt e w = (Uncaught e, w).
Proof.
  intros Ha Hc He. unfold handle_exception. rewrite Ha, Hc, He. reflexivity.
Qed.

End Exit_codes.



(** Concrete runs of [main] from a fresh process. *)
Example abort_run :
  main sample_getenv sample_format sample_runtime (mkKwargs ObjNone)
       (mkOptions false None None false) (Resolved (sub_raise sample_abort))
       (import_world ∅)
  = (Exited 1,
     then_events (bootstrapped sample_getenv ∅ (mkKwargs ObjNone)
                    (mkOptions false None None false))
       [EvInvoke (ObjDict {["detect_memory_leaks" := PyBool false]})]).
Proof. vm_compute. reflexivity. Qed.

Example abort_wins_over_click_exception :
  main sample_getenv sample_format sample_runtime (mkKwargs ObjNone)
       (mkOptions false None None false) (Resolved (sub_raise sample_abort_and_click))
       (import_world ∅)
  = main sample_getenv sample_format sample_runtime (mkKwargs ObjNone)
       (mkOptions false None None false) (Resolved (sub_raise sample_abort))
       (import_world ∅).
Proof. vm_compute. reflexivity. Qed.

Example normal_run :
  fst (main sample_getenv sample_format sample_runtime (mkKwargs ObjNone)
         (mkOptions true (Some 9999) None false) (Resolved (sub_return PyNone))
         (import_world ∅))
  = Exited 0.
Proof. vm_compute. reflexivity. Qed.

Example system_exit_is_not_caught :
  fst (main sample_getenv sample_format sample_runtime (mkKwargs ObjNone)
         (mkOptions false None None false) (Resolved (sub_raise sample_system_exit))
         (import_world ∅))
  = Uncaught sample_system_exit.
Proof. vm_compute. reflexivity. Qed.

(** ** The report of an unhandled exception (C4) *)

(** C4: when what the dispatch hands to [main] is an [Exception] that is
    neither an abort nor a click exception, then, whatever world the
    dispatch left, [main] formats the trace with line wrap 120, value
    truncation 1200, click's frames suppressed and values not shown, logs it
    at ERROR through the module logger, then logs exactly two lines at
    INFO, the first made of the tool's version and install location, the
    second of the runtime's version, executable path and platform string,
    and exits with status 1; each of the three calls writes what the
    logging configuration of that world makes of it, and nothing else
    happens.  When that configuration is the one the bootstrap leaves, the
    trace is written to standard error and to the file, and each
    diagnostic line to standard output and to the file. *)
Theorem unhandled_exception_report getenv fmt rt kw o cmd w0 e w1 :
  click_main getenv kw o cmd w0 = (Raised e, w1) ->
  isinstance e Abort = false ->
  isinstance e ClickException = false ->
  isinstance e Exception = true ->
  let opts := mkFormatOpts 120 1200 ["lib/python.*/site-packages/click/"] false in
  let text := fmt e opts in
  let tool := "DataHub Actions version: " +:+ package_version rt
                +:+ " at " +:+ package_file rt in
  let runtime := "Python version: " +:+ sys_version rt
                   +:+ " at " +:+ sys_executable rt
                   +:+ " on " +:+ platform_platform rt in
  let written lvl msg :=
    map EvEmit (Logging.log (logging w1) Entrypoints lvl msg) in
  let run := main getenv fmt rt kw o cmd w0 in
  run =
    (Exited 1,
     then_events w1
       ([EvFormat e opts; EvLog Entrypoints ERROR text] ++ written ERROR text
          ++ [EvLog Entrypoints INFO tool] ++ written INFO tool
          ++ [EvLog Entrypoints INFO runtime] ++ written INFO runtime)) /\
  (forall env kw' o',
     logging w1 = logging (bootstrapped getenv env kw' o') ->
     run =
       (Exited 1,
        then_events w1
          [EvFormat e opts;
           EvLog Entrypoints ERROR text;
           emitted stderr_sink ERROR text;
           emitted file_sink ERROR text;
           EvLog Entrypoints INFO tool;
           emitted stdout_sink INFO tool;
           emitted file_sink INFO tool;
           EvLog Entrypoints INFO runtime;
           emitted stdout_sink INFO runtime;
           emitted file_sink INFO runtime])).
Proof.
  intros H Ha Hc He. cbv zeta.
  rewrite (main_run getenv fmt rt _ _ _ _ _ _ H).
  unfold handle_exception. rewrite Ha, Hc, He.
  unfold mbind, Prog_bind, record, log_call, sys_exit, mret, Prog_ret, then_events.
  cbn [environ logging trace].
  change (version_line rt)
    with ("DataHub Actions version: " +:+ package_version rt
            +:+ " at " +:+ package_file rt).
  change (python_line rt)
    with ("Python version: " +:+ sys_version rt +:+ " at " +:+ sys_executable rt
            +:+ " on " +:+ platform_platform rt).
  change trace_opts
    with (mkFormatOpts 120 1200 ["lib/python.*/site-packages/click/"] false).
  change (exit_status 1) with 1.
  split.
  - rewrite <- !app_assoc. reflexivity.
  - intros env kw' o' Hl. rewrite bootstrap_logging in Hl. rewrite Hl.
    rewrite !log_error_configured, !log_info_configured.
    cbn [map]. rewrite <- !app_assoc. reflexivity.
Qed.

Lemma unhandled_exception_report_witness :
  let kw := mkKwargs ObjNone in
  let o := mkOptions false None None false in
  fst (main sample_getenv sample_format sample_runtime kw o
         (Resolved (sub_raise sample_value_error)) (import_world ∅)) = Exited 1.
Proof.
  cbv zeta.
  refine (f_equal fst (proj1
    (unhandled_exception_report sample_getenv sample_format sample_runtime
       (mkKwargs ObjNone) (mkOptions false None None false)
       (Resolved (sub_raise sample_value_error)) (import_world ∅)
       sample_value_error
       (snd (click_main sample_getenv (mkKwargs ObjNone)
               (mkOptions false None None false)
               (Resolved (sub_raise sample_value_error)) (import_world ∅)))
       _ _ _ _))).
  - rewrite click_main_resolved, group_main_run. reflexivity.
  - reflexivity.
  - reflexivity.
  - reflexivity.
Defined.

(** * Beyond a fresh process

    The statements so far start from a freshly imported module.  The rest
    of the development follows the callback from an arbitrary logging
    state, through repeated invocations, and [main] through the remaining
    ways a dispatch can end. *)

(** As [plumbing], for a run that starts in any world. *)
Ltac plumbing_from w :=
  destruct w as [env st t];
  cbv beta iota zeta delta
    [bootstrap exec result fst snd mbind mret Prog_bind Prog_ret
     datahub_actions new call record getenv_bool por start_http_server
     environ logging trace debug_enabled orb new_handler setup_logging
     enable_monitoring_of monitoring_port_of debug_of detect_memory_leaks_of
     opt_enable_monitoring opt_monitoring_port opt_debug
     opt_detect_memory_leaks default id].

Section Any_state.

Variable getenv : gmap string string -> string -> bool -> bool.

Lemma new_handler_nil s0 r d m k :
  new_handler k (mkState s0 r d m)
  = ((length s0 + 0)%nat, mkState (s0 ++ [mkHandler k NOTSET [] None]) r d m).
Proof. unfold new_handler. cbn. rewrite Nat.add_0_r. reflexivity. Qed.

Lemma new_handler_app s0 l r d m k :
  new_handler k (mkState (s0 ++ l) r d m)
  = ((length s0 + length l)%nat,
     mkState (s0 ++ (l ++ [mkHandler k NOTSET [] None])) r d m).
Proof. unfold new_handler. cbn. rewrite length_app, <- app_assoc. reflexivity. Qed.

Lemma update_handler_app (s0 l : list Handler) r d m (k : nat) f x :
  l !! k = Some x ->
  update_handler (length s0 + k)%nat f (mkState (s0 ++ l) r d m)
  = mkState (s0 ++ <[k := f x]> l) r d m.
Proof.
  intros H. unfold update_handler. cbn [store root datahub_logger logger].
  rewrite lookup_app_r by lia.
  replace (length s0 + k - length s0)%nat with k by lia.
  rewrite H, insert_app_r. reflexivity.
Qed.

(** A reference past the end of the store is held by no logger whose
    references point into the store. *)
Lemma existsb_fresh (n k : nat) (hs : list nat) :
  (forall h, h ∈ hs -> (h < n)%nat) -> existsb (Nat.eqb (n + k)%nat) hs = false.
Proof.
  intros H. induction hs as [|h hs IH]; [reflexivity|].
  cbn. rewrite IH.
  - rewrite orb_false_r. apply Nat.eqb_neq.
    specialize (H h (ltac:(apply elem_of_cons; left; reflexivity))). lia.
  - intros h' Hin. apply H, elem_of_cons. right. exact Hin.
Qed.

Lemma existsb_fresh_snoc (n k j : nat) (hs : list nat) :
  existsb (Nat.eqb (n + k)%nat) hs = false -> k <> j ->
  existsb (Nat.eqb (n + k)%nat) (hs ++ [(n + j)%nat]) = false.
Proof.
  intros H Hne. rewrite existsb_app, H. cbn.
  rewrite orb_false_r. apply Nat.eqb_neq. lia.
Qed.

(** The callback's effect on the logging state is [setup_logging]. *)
Lemma bootstrap_setup kw o w :
  logging (exec (bootstrap getenv kw o) w)
  = setup_logging (debug_of o || getenv (environ w) "DATAHUB_DEBUG" false) (logging w).
Proof.
  destruct o as [[|] port [[|]|] leaks]; plumbing_from w;
    try destruct (getenv env "DATAHUB_DEBUG" false); exact eq_refl.
Qed.

Lemma bootstrap_context_from kw o w :
  result (bootstrap getenv kw o) w =
    setitem (ensure_object (mkContext (kw_obj kw))) "detect_memory_leaks"
            (PyBool (opt_detect_memory_leaks o)).
Proof.
  destruct o as [[|] port [[|]|] leaks]; plumbing_from w;
    try destruct (getenv env "DATAHUB_DEBUG" false); exact eq_refl.
Qed.

Lemma bootstrap_environ_from kw o w :
  environ (exec (bootstrap getenv kw o) w) = environ w.
Proof.
  destruct o as [[|] port [[|]|] leaks]; plumbing_from w;
    try destruct (getenv env "DATAHUB_DEBUG" false); exact eq_refl.
Qed.

(** Symbolic execution of the configuration calls on a store of unknown
    length: each call is rewritten with its effect on the tail of the store
    that the callback appended. *)
Ltac step_logging H0 H1 H2 :=
  repeat (first
      [ rewrite new_handler_app | rewrite new_handler_nil
      | erewrite update_handler_app by reflexivity
      | rewrite H0 | rewrite H1 | rewrite H2
      | progress cbv beta iota zeta delta [apply update_logger get put href] ];
      unfold href in *;
      cbn [app length list_insert insert
           h_kind h_level h_filters h_formatter
           lg_level lg_handlers lg_propagate
           store root datahub_logger logger]).

(** When the dedicated logger's references point into the store, the three
    new handlers are new to it, all three are attached, and the state the
    callback leaves is [configured_from]. *)
Lemma setup_logging_fresh dbg st :
  (forall h, h ∈ lg_handlers (datahub_logger st) -> (h < length (store st))%nat) ->
  setup_logging dbg st = configured_from st dbg.
Proof.
  destruct st as [s0 r d m]. cbn [store datahub_logger]. intros Hd.
  pose proof (existsb_fresh (length s0) 0 _ Hd) as H0.
  pose proof (existsb_fresh_snoc _ 1 0 _ (existsb_fresh (length s0) 1 _ Hd)
                ltac:(discriminate)) as H1.
  pose proof (existsb_fresh_snoc _ 2 1 _
                (existsb_fresh_snoc _ 2 0 _ (existsb_fresh (length s0) 2 _ Hd)
                   ltac:(discriminate)) ltac:(discriminate)) as H2.
  unfold setup_logging. cbv zeta. unfold href in *.
  step_logging H0 H1 H2.
  destruct dbg;
    unfold configured_from, installed; cbn [store root datahub_logger logger];
    rewrite <- ?app_assoc, ?Nat.add_0_r, ?Nat.add_1_r; cbn [app];
    replace (length s0 + 2)%nat with (S (S (length s0))) by lia;
    reflexivity.
Qed.

Lemma refs_dedicated st :
  refs_in_store st ->
  forall h, h ∈ lg_handlers (datahub_logger st) -> (h < length (store st))%nat.
Proof.
  unfold refs_in_store. rewrite !Forall_app, !Forall_forall.
  intros (_ & Hd & _) h Hin. apply Hd, Hin.
Qed.

Lemma refs_root st :
  refs_in_store st ->
  forall h, h ∈ lg_handlers (root st) -> (h < length (store st))%nat.
Proof.
  unfold refs_in_store. rewrite !Forall_app, !Forall_forall.
  intros (Hr & _ & _) h Hin. apply Hr, Hin.
Qed.

Lemma bootstrap_from kw o w :
  refs_in_store (logging w) ->
  logging (exec (bootstrap getenv kw o) w)
  = configured_from (logging w)
      (debug_of o || getenv (environ w) "DATAHUB_DEBUG" false).
Proof.
  intros Hr. rewrite bootstrap_setup. apply setup_logging_fresh, refs_dedicated, Hr.
Qed.

Lemma configured_from_refs st dbg :
  refs_in_store st -> refs_in_store (configured_from st dbg).
Proof.
  unfold refs_in_store, configured_from.
  cbn [store root datahub_logger logger lg_handlers].
  rewrite !Forall_app, !Forall_forall.
  intros (Hr & Hd & Hm).
  repeat split; intros h Hin; rewrite length_app; cbn [length installed].
  - specialize (Hr h Hin). lia.
  - specialize (Hd h Hin). lia.
  - rewrite !elem_of_cons, elem_of_nil in Hin. lia.
  - specialize (Hm h Hin). lia.
Qed.

(** A handler the callback installed is found right after the old store. *)
Lemma deref_installed st dbg k :
  deref (configured_from st dbg) (length (store st) + k)%nat
  = match installed dbg !! k with Some x => [x] | None => [] end.
Proof.
  unfold deref, configured_from. cbn [store].
  rewrite lookup_app_r by lia.
  replace (length (store st) + k - length (store st))%nat with k by lia.
  reflexivity.
Qed.

Lemma lookup_configured_from st dbg h :
  (h < length (store st))%nat ->
  store (configured_from st dbg) !! h = store st !! h.
Proof. intros Hh. unfold configured_from. cbn [store]. apply lookup_app_l, Hh. Qed.

(** The dedicated logger emits what it emitted before, then what the three
    new handlers make of the record. *)
Lemma emits_configured_from st dbg r :
  (forall h, h ∈ lg_handlers (datahub_logger st) -> (h < length (store st))%nat) ->
  logger_emits (configured_from st dbg) (datahub_logger (configured_from st dbg)) r
  = logger_emits st (datahub_logger st) r
      ++ flat_map (fun x => handle_one x r) (installed dbg).
Proof.
  intros Hd. unfold logger_emits at 1.
  change (lg_handlers (datahub_logger (configured_from st dbg)))
    with (lg_handlers (datahub_logger st)
            ++ [length (store st); S (length (store st)); S (S (length (store st)))]).
  rewrite flat_map_app. f_equal.
  - apply (logger_emits_agree st (configured_from st dbg) (datahub_logger st) r).
    intros h Hin. apply lookup_configured_from, Hd, Hin.
  - pose proof (deref_installed st dbg 0) as E0.
    pose proof (deref_installed st dbg 1) as E1.
    pose proof (deref_installed st dbg 2) as E2.
    rewrite Nat.add_0_r in E0.
    replace (length (store st) + 1)%nat with (S (length (store st))) in E1 by lia.
    replace (length (store st) + 2)%nat with (S (S (length (store st)))) in E2 by lia.
    cbn [flat_map]. rewrite E0, E1, E2.
    destruct dbg; simpl; rewrite ?app_nil_r; reflexivity.
Qed.

Lemma installed_sinks (dbg : bool) nm lvl msg :
  (if dbg then DEBUG else INFO) <= lvl ->
  map em_sink (flat_map (fun x => handle_one x (mkRecord nm lvl msg)) (installed dbg))
  = (if lvl <=? INFO then [stdout_sink] else [])
      ++ (if WARNING <=? lvl then [stderr_sink] else [])
      ++ [file_sink].
Proof.
  intros Hl.
  destruct dbg; unfold DEBUG, INFO in Hl; cbv -[Z.leb];
    destruct (Z.leb_spec 10 lvl), (Z.leb_spec 20 lvl), (Z.leb_spec 30 lvl),
      (Z.leb_spec lvl 20); cbn; try reflexivity; lia.
Qed.

(** Closed form of the sinks a record reaches after a run of the callback
    that started from [st]. *)
Lemma sinks_configured_from st (dbg : bool) n lvl msg :
  (forall h, h ∈ lg_handlers (datahub_logger st) -> (h < length (store st))%nat) ->
  logger st = mkLogger NOTSET [] true ->
  through_dedicated n = true ->
  sinks (configured_from st dbg) n lvl msg =
    if (if dbg then DEBUG else INFO) <=? lvl then
      map em_sink (logger_emits st (datahub_logger st)
                     (mkRecord (logger_name n) lvl msg))
        ++ (if lvl <=? INFO then [stdout_sink] else [])
        ++ (if WARNING <=? lvl then [stderr_sink] else [])
        ++ [file_sink]
    else [].
Proof.
  intros Hd Hm Hn.
  pose proof (emits_configured_from st dbg (mkRecord (logger_name n) lvl msg) Hd) as He.
  assert (Hlow : ((if dbg then DEBUG else INFO) =? 0) = false)
    by (destruct dbg; reflexivity).
  assert (Hlen : Nat.eqb (length (lg_handlers (datahub_logger st)
                   ++ [length (store st); S (length (store st));
                       S (S (length (store st)))])) 0 = false).
  { rewrite length_app. cbn [length]. apply Nat.eqb_neq. lia. }
  unfold sinks, Logging.log, isEnabledFor, getEffectiveLevel, callHandlers.
  destruct n; [discriminate Hn | |];
    cbn [chain first_level walk get];
    change (logger (configured_from st dbg)) with (logger st);
    rewrite ?Hm;
    change (lg_level (datahub_logger (configured_from st dbg)))
      with (if dbg then DEBUG else INFO);
    change (lg_propagate (datahub_logger (configured_from st dbg))) with false;
    change (lg_handlers (datahub_logger (configured_from st dbg)))
      with (lg_handlers (datahub_logger st)
              ++ [length (store st); S (length (store st)); S (S (length (store st)))]);
    cbn [lg_level lg_propagate lg_handlers NOTSET Z.eqb length Nat.add];
    rewrite ?Hlow;
    destruct (Z.leb_spec lvl manager_disable) as [Hoff|Hon];
    destruct (Z.leb_spec (if dbg then DEBUG else INFO) lvl) as [Hle|Hgt];
    try reflexivity;
    try (exfalso; unfold manager_disable, DEBUG, INFO in *; destruct dbg; lia).
  - rewrite Hlen, He, map_app, installed_sinks by exact Hle. reflexivity.
  - unfold logger_emits at 1. cbn [lg_handlers flat_map app].
    rewrite Hlen, He, map_app, installed_sinks by exact Hle. reflexivity.
Qed.

(** The sinks after a run that found the dedicated and the module logger
    untouched, whatever the root logger and the store were. *)
Lemma sinks_from_untouched kw o w n lvl msg :
  untouched (logging w) ->
  through_dedicated n = true ->
  sinks (logging (exec (bootstrap getenv kw o) w)) n lvl msg =
    if (if debug_of o || getenv (environ w) "DATAHUB_DEBUG" false
        then DEBUG else INFO) <=? lvl then
      (if lvl <=? INFO then [stdout_sink] else [])
        ++ (if WARNING <=? lvl then [stderr_sink] else [])
        ++ [file_sink]
    else [].
Proof.
  intros [Hd Hm] Hn.
  assert (Hrefs : forall h, h ∈ lg_handlers (datahub_logger (logging w)) ->
                            (h < length (store (logging w)))%nat).
  { rewrite Hd. intros h Hin. apply elem_of_nil in Hin. contradiction. }
  rewrite bootstrap_setup, setup_logging_fresh by exact Hrefs.
  rewrite sinks_configured_from by assumption.
  rewrite Hd. reflexivity.
Qed.

End Any_state.

(** ** The logging state after a run from any state *)

(** Whatever logging state the callback starts from, provided the loggers
    reference existing handlers: it appends three handler objects (stdout
    with the INFO filter, stderr at WARNING, the rotating file) to the store,
    attaches them to the dedicated logger after the handlers that logger
    already had, switches the dedicated logger's propagation off, and
    overwrites the root logger's level (INFO in debug mode, WARNING
    otherwise) and the dedicated logger's (DEBUG or INFO).  The state it
    leaves again references existing handlers only. *)
Theorem callback_from_any_state getenv kw o w :
  refs_in_store (logging w) ->
  let st' := logging (exec (bootstrap getenv kw o) w) in
  st' = configured_from (logging w)
          (debug_of o || getenv (environ w) "DATAHUB_DEBUG" false) /\
  refs_in_store st'.
Proof.
  intros Hr. cbv zeta. rewrite (bootstrap_from getenv kw o w Hr).
  split; [reflexivity|]. apply configured_from_refs, Hr.
Qed.

Lemma callback_from_any_state_witness :
  logging (exec (bootstrap sample_getenv (mkKwargs ObjNone)
                   (mkOptions false None (Some true) false)) sample_host_world)
  = configured_from (logging sample_host_world) true.
Proof.
  refine (proj1 (callback_from_any_state sample_getenv (mkKwargs ObjNone)
                   (mkOptions false None (Some true) false) sample_host_world _)).
  unfold refs_in_store. cbn. repeat constructor.
Defined.

(** The callback overwrites the root logger's level and nothing else of
    what it found: the root logger keeps its handlers and its propagation
    flag, the handler objects that existed keep their configuration, so the
    root logger's handlers are the objects they were; the module logger and
    the process environment are left as they were. *)
Theorem callback_leaves_the_rest getenv kw o w :
  refs_in_store (logging w) ->
  let w' := exec (bootstrap getenv kw o) w in
  lg_handlers (root (logging w')) = lg_handlers (root (logging w)) /\
  lg_propagate (root (logging w')) = lg_propagate (root (logging w)) /\
  (forall h x, store (logging w) !! h = Some x -> store (logging w') !! h = Some x) /\
  attached (logging w') Root = attached (logging w) Root /\
  logger (logging w') = logger (logging w) /\
  environ w' = environ w.
Proof.
  intros Hr. cbv zeta.
  rewrite bootstrap_environ_from, (bootstrap_from getenv kw o w Hr).
  set (dbg := debug_of o || getenv (environ w) "DATAHUB_DEBUG" false).
  repeat split.
  - intros h x Hx. rewrite lookup_configured_from; [exact Hx|].
    apply lookup_lt_is_Some. eexists. exact Hx.
  - unfold attached.
    change (lg_handlers (get (configured_from (logging w) dbg) Root))
      with (lg_handlers (root (logging w))).
    cbn [get]. pose proof (refs_root _ Hr) as Hroot.
    induction (lg_handlers (root (logging w))) as [|h hs IH]; [reflexivity|].
    assert (E : deref (configured_from (logging w) dbg) h = deref (logging w) h).
    { unfold deref. rewrite lookup_configured_from; [reflexivity|].
      apply Hroot, elem_of_cons. left. reflexivity. }
    cbn [flat_map]. rewrite E, IH; [reflexivity|].
    intros h' Hin. apply Hroot, elem_of_cons. right. exact Hin.
Qed.

Lemma callback_leaves_the_rest_witness :
  attached (logging (exec (bootstrap sample_getenv (mkKwargs ObjNone)
                             (mkOptions false None None false)) sample_host_world))
           Root
  = attached (logging sample_host_world) Root.
Proof.
  refine (proj1 (proj2 (proj2 (proj2
    (callback_leaves_the_rest sample_getenv (mkKwargs ObjNone)
       (mkOptions false None None false) sample_host_world _))))).
  unfold refs_in_store. cbn. repeat constructor.
Defined.

(** ** Repeated invocation *)

Section Repeated.

Variable getenv : gmap string string -> string -> bool -> bool.

Lemma written_per_run_S k :
  written_per_run (S k) = written_per_run k ++ [stdout_sink; file_sink].
Proof.
  unfold written_per_run.
  replace (S k) with (k + 1)%nat by lia.
  rewrite repeat_app, concat_app. cbn [repeat concat]. rewrite app_nil_r.
  reflexivity.
Qed.

Lemma runs_cons kw o calls w :
  runs getenv w ((kw, o) :: calls) = runs getenv (exec (bootstrap getenv kw o) w) calls.
Proof. reflexivity. Qed.

(** What [k] earlier runs left and the next run builds on. *)
Lemma runs_accumulate calls : forall w k,
  refs_in_store (logging w) ->
  logger (logging w) = mkLogger NOTSET [] true ->
  length (lg_handlers (datahub_logger (logging w))) = (3 * k)%nat ->
  length (store (logging w)) = (1 + 3 * k)%nat ->
  (forall nm msg,
     map em_sink (logger_emits (logging w) (datahub_logger (logging w))
                    (mkRecord nm INFO msg)) = written_per_run k) ->
  (forall n msg, through_dedicated n = true ->
     sinks (logging w) n INFO msg = written_per_run k) ->
  let st := logging (runs getenv w calls) in
  length (lg_handlers (datahub_logger st)) = (3 * (k + length calls))%nat /\
  length (store st) = (1 + 3 * (k + length calls))%nat /\
  (forall n msg, through_dedicated n = true ->
     sinks st n INFO msg = written_per_run (k + length calls)).
Proof.
  induction calls as [|[kw o] calls IH]; intros w k Hr Hm Hlen Hst Hem Hs; cbv zeta.
  - cbn [runs length]. rewrite Nat.add_0_r. repeat split; assumption.
  - rewrite runs_cons. cbn [length].
    replace (k + S (length calls))%nat with (S k + length calls)%nat by lia.
    pose proof (refs_dedicated _ Hr) as Hd.
    pose proof (bootstrap_from getenv kw o w Hr) as E. revert E.
    generalize (debug_of o || getenv (environ w) "DATAHUB_DEBUG" false).
    generalize (exec (bootstrap getenv kw o) w). intros w' dbg E.
    apply IH; rewrite E.
    + apply configured_from_refs, Hr.
    + exact Hm.
    + change (lg_handlers (datahub_logger (configured_from (logging w) dbg)))
        with (lg_handlers (datahub_logger (logging w))
                ++ [length (store (logging w)); S (length (store (logging w)));
                    S (S (length (store (logging w))))]).
      rewrite length_app, Hlen. cbn [length]. lia.
    + change (store (configured_from (logging w) dbg))
        with (store (logging w) ++ installed dbg).
      rewrite length_app, Hst. destruct dbg; cbn [installed length]; lia.
    + intros nm msg. rewrite emits_configured_from by exact Hd.
      rewrite map_app, Hem, installed_sinks, written_per_run_S
        by (destruct dbg; unfold DEBUG, INFO; lia).
      reflexivity.
    + intros n msg Hn.
      rewrite sinks_configured_from by assumption.
      rewrite Hem, written_per_run_S.
      destruct dbg; reflexivity.
Qed.

End Repeated.

(** Each invocation of the group callback in one process (a test runner
    calling the command several times, say) adds another three handlers to
    the dedicated logger: after [n] invocations, whatever their flags, it
    holds [3 * n] handlers, and one INFO record is written [n] times to
    standard output and [n] times to the log file. *)
Theorem handlers_accumulate getenv calls env :
  let st := logging (runs getenv (import_world env) calls) in
  length (lg_handlers (datahub_logger st)) = (3 * length calls)%nat /\
  length (store st) = (1 + 3 * length calls)%nat /\
  forall msg,
    sinks st DatahubActions INFO msg = written_per_run (length calls) /\
    sinks st Entrypoints INFO msg = written_per_run (length calls).
Proof.
  cbv zeta.
  destruct (runs_accumulate getenv calls (import_world env) 0) as (Hl & Hs & Hw).
  - unfold refs_in_store. cbn. repeat constructor.
  - reflexivity.
  - reflexivity.
  - reflexivity.
  - reflexivity.
  - intros n msg Hn. destruct n; [discriminate Hn| |]; reflexivity.
  - cbn [Nat.add] in Hl, Hs, Hw. split; [exact Hl|]. split; [exact Hs|].
    intros msg. split; apply Hw; reflexivity.
Qed.

(** ** Routing when other code configured the root logger *)

(** The routing by severity does not depend on what the process did to the
    root logger before the callback ran: whatever handlers and level the
    root logger has and whatever handler objects exist, as long as nobody
    touched the dedicated logger and the module logger, a record through
    either is dropped below the dedicated logger's threshold (DEBUG in
    debug mode, INFO otherwise) and is otherwise written to standard output
    when at most INFO, to standard error when at least WARNING, and to the
    file, in this order. *)
Theorem routing_under_any_root getenv kw o w n lvl msg :
  untouched (logging w) ->
  through_dedicated n = true ->
  sinks (logging (exec (bootstrap getenv kw o) w)) n lvl msg =
    if (if debug_of o || getenv (environ w) "DATAHUB_DEBUG" false
        then DEBUG else INFO) <=? lvl then
      (if lvl <=? INFO then [stdout_sink] else [])
        ++ (if WARNING <=? lvl then [stderr_sink] else [])
        ++ [file_sink]
    else [].
Proof. apply sinks_from_untouched. Qed.

Lemma routing_under_any_root_witness :
  sinks (logging (exec (bootstrap sample_getenv (mkKwargs ObjNone)
                          (mkOptions false None None false)) sample_host_world))
        Entrypoints ERROR "boom"
  = [stderr_sink; file_sink].
Proof.
  refine (routing_under_any_root sample_getenv (mkKwargs ObjNone)
            (mkOptions false None None false) sample_host_world
            Entrypoints ERROR "boom" _ _).
  - split; reflexivity.
  - reflexivity.
Defined.

(** The log file is complete: it receives a record exactly when the
    dedicated logger's threshold lets the record through, every record
    written to a console stream is written to the file as well, and
    nothing is written anywhere but to the three sinks. *)
Theorem file_receives_every_record getenv kw o w n lvl msg :
  untouched (logging w) ->
  through_dedicated n = true ->
  let out := sinks (logging (exec (bootstrap getenv kw o) w)) n lvl msg in
  (file_sink ∈ out <->
     (if debug_of o || getenv (environ w) "DATAHUB_DEBUG" false
      then DEBUG else INFO) <= lvl) /\
  (out <> [] -> file_sink ∈ out) /\
  (forall s, s ∈ out -> s = stdout_sink \/ s = stderr_sink \/ s = file_sink).
Proof.
  intros Hu Hn. cbv zeta. rewrite (sinks_from_untouched getenv kw o w n lvl msg Hu Hn).
  destruct (debug_of o || getenv (environ w) "DATAHUB_DEBUG" false);
    unfold DEBUG, INFO, WARNING;
    destruct (Z.leb_spec 10 lvl), (Z.leb_spec 20 lvl), (Z.leb_spec 30 lvl),
      (Z.leb_spec lvl 20); try lia; cbn [app];
    (split; [|split]); try intros s;
    rewrite ?elem_of_cons, ?elem_of_nil;
    intuition (try discriminate; try lia; auto).
Qed.

Lemma file_receives_every_record_witness :
  file_sink ∈ sinks (logging (exec (bootstrap sample_getenv (mkKwargs ObjNone)
                                      (mkOptions false None None false))
                                   sample_host_world))
                    DatahubActions WARNING "careful".
Proof.
  refine (proj2 (proj1 (file_receives_every_record sample_getenv (mkKwargs ObjNone)
                          (mkOptions false None None false) sample_host_world
                          DatahubActions WARNING "careful" _ _)) _).
  - split; reflexivity.
  - reflexivity.
  - change (INFO <= WARNING). unfold INFO, WARNING. lia.
Defined.

(** A record whose level lies strictly between INFO and WARNING (a custom
    level such as 25) is shown on neither console stream: the filter on the
    stdout handler rejects it, the stderr handler's threshold is not
    reached, and the file is the only sink it is written to, in debug mode
    or not. *)
Theorem between_info_and_warning getenv kw o w n lvl msg :
  untouched (logging w) ->
  through_dedicated n = true ->
  INFO < lvl < WARNING ->
  sinks (logging (exec (bootstrap getenv kw o) w)) n lvl msg = [file_sink].
Proof.
  intros Hu Hn Hl. rewrite (sinks_from_untouched getenv kw o w n lvl msg Hu Hn).
  destruct (debug_of o || getenv (environ w) "DATAHUB_DEBUG" false);
    unfold DEBUG, INFO, WARNING in *;
    destruct (Z.leb_spec 10 lvl), (Z.leb_spec 20 lvl), (Z.leb_spec 30 lvl),
      (Z.leb_spec lvl 20); try lia; reflexivity.
Qed.

Lemma between_info_and_warning_witness :
  sinks (logging (exec (bootstrap sample_getenv (mkKwargs ObjNone)
                          (mkOptions false None None false)) (import_world ∅)))
        Entrypoints 25 "notice"
  = [file_sink].
Proof.
  refine (between_info_and_warning sample_getenv (mkKwargs ObjNone)
            (mkOptions false None None false) (import_world ∅)
            Entrypoints 25 "notice" _ _ _).
  - split; reflexivity.
  - reflexivity.
  - unfold INFO, WARNING. lia.
Defined.

(** In debug mode standard output shows exactly the records from DEBUG up
    to INFO, and a record below DEBUG is written nowhere. *)
Theorem debug_mode_stdout getenv kw o w n lvl msg :
  untouched (logging w) ->
  through_dedicated n = true ->
  debug_of o || getenv (environ w) "DATAHUB_DEBUG" false = true ->
  let out := sinks (logging (exec (bootstrap getenv kw o) w)) n lvl msg in
  (stdout_sink ∈ out <-> DEBUG <= lvl <= INFO) /\
  (lvl < DEBUG -> out = []).
Proof.
  intros Hu Hn Hon. cbv zeta.
  rewrite (sinks_from_untouched getenv kw o w n lvl msg Hu Hn), Hon.
  unfold DEBUG, INFO, WARNING.
  destruct (Z.leb_spec 10 lvl), (Z.leb_spec 30 lvl), (Z.leb_spec lvl 20);
    try lia; cbn [app]; (split; [|intros; try reflexivity; lia]);
    rewrite ?elem_of_cons, ?elem_of_nil; split;
    intuition (try discriminate; try lia).
Qed.

Lemma debug_mode_stdout_witness :
  stdout_sink ∈ sinks (logging (exec (bootstrap sample_getenv (mkKwargs ObjNone)
                                        (mkOptions false None (Some true) false))
                                     (import_world ∅)))
                      DatahubActions DEBUG "detail".
Proof.
  refine (proj2 (proj1 (debug_mode_stdout sample_getenv (mkKwargs ObjNone)
                          (mkOptions false None (Some true) false) (import_world ∅)
                          DatahubActions DEBUG "detail" _ _ _)) _).
  - split; reflexivity.
  - reflexivity.
  - reflexivity.
  - unfold DEBUG, INFO. lia.
Defined.

(** No record is written twice to a sink, and no record is written to
    both console streams. *)
Theorem each_sink_at_most_once getenv kw o w n lvl msg :
  untouched (logging w) ->
  through_dedicated n = true ->
  let out := sinks (logging (exec (bootstrap getenv kw o) w)) n lvl msg in
  NoDup out /\ ~ (stdout_sink ∈ out /\ stderr_sink ∈ out).
Proof.
  intros Hu Hn. cbv zeta. rewrite (sinks_from_untouched getenv kw o w n lvl msg Hu Hn).
  destruct (debug_of o || getenv (environ w) "DATAHUB_DEBUG" false);
    unfold DEBUG, INFO, WARNING;
    destruct (Z.leb_spec 10 lvl), (Z.leb_spec 20 lvl), (Z.leb_spec 30 lvl),
      (Z.leb_spec lvl 20); try lia; cbn [app];
    (split; [repeat constructor | ]);
    rewrite ?elem_of_cons, ?elem_of_nil;
    intuition discriminate.
Qed.

Lemma each_sink_at_most_once_witness :
  NoDup (sinks (logging (exec (bootstrap sample_getenv (mkKwargs ObjNone)
                                 (mkOptions false None None false))
                              sample_host_world))
               Entrypoints INFO "started").
Proof.
  refine (proj1 (each_sink_at_most_once sample_getenv (mkKwargs ObjNone)
                   (mkOptions false None None false) sample_host_world
                   Entrypoints INFO "started" _ _)).
  - split; reflexivity.
  - reflexivity.
Defined.

(** ** The context object for any keyword arguments *)

Section Dispatch_from.

Variable getenv : gmap string string -> string -> bool -> bool.

(** The dispatch from any world. *)
Lemma group_main_from kw o sub w :
  group_main getenv kw o sub w =
    let ctx := result (bootstrap getenv kw o) w in
    sub (obj ctx) (then_events (exec (bootstrap getenv kw o) w) [EvInvoke (obj ctx)]).
Proof.
  unfold group_main, exec, result, then_events, mbind, Prog_bind, record.
  destruct (bootstrap getenv kw o w) as [ctx w']. reflexivity.
Qed.

End Dispatch_from.

(** Whatever [obj] the caller of [main] passes and whatever world the
    command runs in, the sub-command receives a dict: it holds the
    [--detect-memory-leaks] flag under ["detect_memory_leaks"] (overwriting
    an entry of that name), every other entry of a dict that was passed is
    kept, and an [obj] that is no dict is replaced and contributes
    nothing. *)
Theorem context_for_any_kwargs getenv kw o sub w :
  exists d w',
    group_main getenv kw o sub w = sub (ObjDict d) w' /\
    d !! "detect_memory_leaks" = Some (PyBool (opt_detect_memory_leaks o)) /\
    forall k, k <> "detect_memory_leaks" ->
      d !! k = match kw_obj kw with ObjDict d0 => d0 !! k | _ => None end.
Proof.
  rewrite group_main_from, bootstrap_context_from. cbv zeta.
  unfold ensure_object, setitem. cbn [obj].
  destruct (kw_obj kw) as [|d0|v]; cbn [obj];
    eexists; eexists; (split; [reflexivity|]);
    (split; [apply lookup_insert_eq|]);
    intros k Hk; rewrite lookup_insert_ne by congruence;
    try reflexivity; apply lookup_empty.
Qed.

(** ** What the callback does not do *)

(** The callback itself puts nothing in front of the user: it makes no
    logging call, writes to no stream and formats no trace.  Of the process
    environment it reads one variable, [DATAHUB_DEBUG], once, and only when
    [--debug] was not passed; and it starts the metrics listener once when
    [--enable-monitoring] was passed and never otherwise. *)
Theorem callback_is_silent getenv env kw o :
  let t := trace (bootstrapped getenv env kw o) in
  forallb (fun e => negb (is_output e)) t = true /\
  List.filter is_env_read t
    = (if debug_of o then [] else [EvEnv "DATAHUB_DEBUG"]) /\
  List.filter is_http_server t
    = (if enable_monitoring_of o then [EvHttpServer (monitoring_port_of o)] else []).
Proof.
  cbv zeta. rewrite bootstrap_trace.
  destruct (debug_of o), (debug_enabled getenv env o), (enable_monitoring_of o);
    repeat split; reflexivity.
Qed.

(** ** Exit status and return value *)



(** An interrupt never reaches the [except] clauses of [main] as it was
    raised: when the group callback or the sub-command raises a
    [KeyboardInterrupt] or an [EOFError], click writes an empty line to
    standard error and raises [Abort] in its place, so [main] exits with
    status 1 through its first clause and nothing is logged, although an
    [EOFError] is an [Exception].  Any other exception that is no
    [Exception] (a [SystemExit], say) passes through click and [main]
    untouched: nothing is logged, shown or printed, and the world is the
    one the invocation left. *)
Theorem interrupts_and_base_exceptions getenv fmt rt kw o sub w0 e w1 :
  group_main getenv kw o sub w0 = (Raised e, w1) ->
  follows_hierarchy e = true ->
  let run := main getenv fmt rt kw o (Resolved sub) w0 in
  (isinstance e KeyboardInterrupt = true \/ isinstance e EOFError = true ->
     run = (Exited 1, then_events w1 [EvPrint stderr newline])) /\
  (isinstance e KeyboardInterrupt = false -> isinstance e Exception = false ->
     run = (Uncaught e, w1)).
Proof.
  intros H Hh. cbv zeta. split.
  - intros Hi.
    assert (Hc : click_main getenv kw o (Resolved sub) w0
                 = (Raised click_Abort, then_events w1 [EvPrint stderr newline])).
    { rewrite click_main_resolved, H. cbn [fst snd].
      unfold Command_main_except, mbind, Prog_bind, mret, Prog_ret, record.
      replace (isinstance e EOFError || isinstance e KeyboardInterrupt) with true
        by (destruct Hi as [-> | ->]; [rewrite orb_true_r|]; reflexivity).
      reflexivity. }
    rewrite (main_run getenv fmt rt _ _ _ _ _ _ Hc). reflexivity.
  - intros Hk He.
    destruct (outside_Exception e Hh He) as (Hf & Ho & Hce & Ha & Hx).
    assert (Hc : click_main getenv kw o (Resolved sub) w0 = (Raised e, w1)).
    { rewrite click_main_resolved, H. cbn [fst snd].
      apply Command_main_except_passes; assumption. }
    rewrite (main_run getenv fmt rt _ _ _ _ _ _ Hc).
    apply handle_base_exception; assumption.
Qed.

Lemma interrupts_and_base_exceptions_witness :
  fst (main sample_getenv sample_format sample_runtime (mkKwargs ObjNone)
         (mkOptions false None None false) (Resolved (sub_raise sample_interrupt))
         (import_world ∅)) = Exited 1.
Proof.
  refine (f_equal fst (proj1
    (interrupts_and_base_exceptions sample_getenv sample_format sample_runtime
       (mkKwargs ObjNone) (mkOptions false None None false)
       (sub_raise sample_interrupt) (import_world ∅) sample_interrupt
       (snd (group_main sample_getenv (mkKwargs ObjNone)
               (mkOptions false None None false)
               (sub_raise sample_interrupt) (import_world ∅))) _ _) _)).
  - rewrite group_main_run. reflexivity.
  - reflexivity.
  - left. reflexivity.
Defined.

(** ** A failure before the logging setup *)

(** When the third [except] clause runs while the dedicated logger is still
    unconfigured (the failure came before line 118, a handler constructor
    that raised, say), the report degrades: the trace is written once, to
    standard error, by the root logger's [basicConfig] handler, nothing
    reaches the log file, and the two diagnostic INFO lines are dropped,
    the root logger's threshold being WARNING.  The exit status is still
    1. *)
Theorem report_before_logging_setup fmt rt e w :
  import_config_only (logging w) ->
  isinstance e Abort = false ->
  isinstance e ClickException = false ->
  isinstance e Exception = true ->
  let text := fmt e trace_opts in
  handle_exception fmt rt e w =
    (Exited 1,
     then_events w
       [EvFormat e trace_opts;
        EvLog Entrypoints ERROR text;
        emitted stderr_sink ERROR text;
        EvLog Entrypoints INFO (version_line rt);
        EvLog Entrypoints INFO (python_line rt)]).
Proof.
  intros (Hroot & Hstore & Hd & Hm) Ha Hc He. cbv zeta.
  assert (Herr : forall msg,
            Logging.log (logging w) Entrypoints ERROR msg
            = [mkEmission stderr_sink (Some BASE_LOGGING_FORMAT)
                 (mkRecord "datahub_actions.entrypoints" ERROR msg)]).
  { intros msg.
    unfold Logging.log, isEnabledFor, getEffectiveLevel, callHandlers.
    cbn [chain first_level walk get]. rewrite Hroot, Hd, Hm.
    unfold logger_emits, deref.
    cbn [lg_level lg_handlers lg_propagate flat_map app].
    unfold href. rewrite Hstore. reflexivity. }
  assert (Hinfo : forall msg, Logging.log (logging w) Entrypoints INFO msg = []).
  { intros msg.
    unfold Logging.log, isEnabledFor, getEffectiveLevel.
    cbn [chain first_level get]. rewrite Hroot, Hd, Hm. reflexivity. }
  unfold handle_exception. rewrite Ha, Hc, He.
  unfold mbind, Prog_bind, record, log_call, sys_exit, mret, Prog_ret, then_events.
  cbn [environ logging trace]. rewrite Herr, !Hinfo.
  cbn [map]. rewrite <- !app_assoc. reflexivity.
Qed.

Lemma report_before_logging_setup_witness :
  fst (handle_exception sample_format sample_runtime sample_value_error
         (import_world ∅)) = Exited 1.
Proof.
  rewrite (report_before_logging_setup sample_format sample_runtime
             sample_value_error (import_world ∅)).
  - reflexivity.
  - repeat split; reflexivity.
  - reflexivity.
  - reflexivity.
  - reflexivity.
Defined.

(** ** The level filter *)

(** [LogFilter] is a ceiling: a handler with threshold [lo] and a
    [LogFilter] of level [hi] writes exactly the records whose level lies
    between the two, so none at all when the ceiling is below the
    threshold; and two such filters on one handler act as one filter with
    the lower of the two levels. *)
Theorem LogFilter_is_a_ceiling k lo hi hi' fmt r :
  (handle_one (mkHandler k lo [mkLogFilter hi] fmt) r <> []
     <-> lo <= levelno r <= hi) /\
  (hi < lo -> handle_one (mkHandler k lo [mkLogFilter hi] fmt) r = []) /\
  Filterer_filter (mkHandler k lo [mkLogFilter hi; mkLogFilter hi'] fmt) r
    = filter (mkLogFilter (Z.min hi hi')) r.
Proof.
  unfold handle_one, Filterer_filter, filter.
  cbn [h_level h_filters h_kind h_formatter forallb level].
  rewrite !andb_true_r.
  destruct (Z.leb_spec lo (levelno r)), (Z.leb_spec (levelno r) hi),
    (Z.leb_spec (levelno r) hi'), (Z.leb_spec (levelno r) (Z.min hi hi'));
    cbn [andb]; repeat split; intros; try congruence; try lia.
Qed.

(** ** Which backups the rotation keeps *)

Section Retention.

Lemma filter_other_days x : forall m a,
  (a + m <= x)%nat ->
  List.filter (fun d => negb (Nat.eqb d x)) (seq a m) = seq a m.
Proof.
  induction m as [|m IH]; intros a Hle; [reflexivity|].
  cbn [seq List.filter].
  destruct (Nat.eqb_spec a x) as [->|_]; [lia|].
  cbn [negb]. rewrite IH by lia. reflexivity.
Qed.

End Retention.

(** With the file handler's [backupCount] of 10, after [n] consecutive
    midnights the backups in the log directory are exactly those of the
    last [min n 10] days: the rotation deletes the oldest ones and never a
    recent one. *)
Theorem rotation_keeps_the_newest (first n : nat) :
  after_midnights (backupCount_of file_sink) [] (seq first n)
  = seq (first + (n - 10)) (Nat.min n 10).
Proof.
  change (backupCount_of file_sink) with 10.
  induction n as [|n IH]; [reflexivity|].
  unfold after_midnights in *.
  rewrite seq_S, fold_left_app, IH. cbn [fold_left].
  unfold doRollover, getFilesToDelete.
  rewrite filter_other_days by lia.
  replace (first + n)%nat with ((first + (n - 10)) + Nat.min n 10)%nat by lia.
  rewrite <- seq_S.
  change (0 <? 10) with true. cbv iota.
  rewrite length_seq.
  destruct (Z.ltb_spec (Z.of_nat (S (Nat.min n 10))) 10) as [Hlt|Hge].
  - cbn [length]. rewrite drop_0. f_equal; lia.
  - rewrite length_take, length_seq, drop_seq.
    change (Z.to_nat 10) with 10%nat. f_equal; lia.
Qed.

(** ** What the options reach *)

Section Options_reach.

Variable getenv : gmap string string -> string -> bool -> bool.

(** The world the callback leaves does not depend on the context it was
    given nor on the leak-detection flag, nor on the port when monitoring
    is off. *)
Lemma callback_world ctx ctx' m port port' dbg l l' w :
  (m = true -> port' = port) ->
  exec (datahub_actions getenv ctx' m port' dbg l') w
  = exec (datahub_actions getenv ctx m port dbg l) w.
Proof.
  intros Hp. destruct m; [rewrite (Hp eq_refl)|]; destruct dbg; plumbing_from w;
    try destruct (getenv env "DATAHUB_DEBUG" false); exact eq_refl.
Qed.

End Options_reach.

(** The logging configuration, the listener and the environment read
    depend on three things only: the [--debug] choice, whether
    [--enable-monitoring] was passed, and the port when it was.  The
    [--detect-memory-leaks] flag and the [obj] passed to [main] reach the
    context and nothing else, and [--monitoring-port] without
    [--enable-monitoring] has no effect at all. *)
Theorem options_do_not_interfere getenv kw kw' o o' w :
  opt_debug o' = opt_debug o ->
  opt_enable_monitoring o' = opt_enable_monitoring o ->
  (opt_enable_monitoring o = true -> monitoring_port_of o' = monitoring_port_of o) ->
  exec (bootstrap getenv kw' o') w = exec (bootstrap getenv kw o) w.
Proof.
  intros Hd Hm Hp. unfold bootstrap, enable_monitoring_of, debug_of.
  rewrite Hd, Hm. apply callback_world. exact Hp.
Qed.

Lemma options_do_not_interfere_witness :
  exec (bootstrap sample_getenv (mkKwargs (ObjOther (PyInt 7)))
          (mkOptions false (Some 9999) None true)) (import_world ∅)
  = exec (bootstrap sample_getenv (mkKwargs ObjNone)
            (mkOptions false None None false)) (import_world ∅).
Proof.
  refine (options_do_not_interfere sample_getenv (mkKwargs ObjNone)
            (mkKwargs (ObjOther (PyInt 7))) (mkOptions false None None false)
            (mkOptions false (Some 9999) None true) (import_world ∅) _ _ _).
  - reflexivity.
  - reflexivity.
  - discriminate.
Defined.

(** Debug mode only adds output: every sink a record reaches without debug
    mode it also reaches with it, from INFO upwards the two modes write
    the same, and the records from DEBUG up to INFO excluded, silent
    without debug mode, go to standard output and the file with it. *)
Theorem debug_only_adds_output getenv kw o kw' o' w n lvl msg :
  untouched (logging w) ->
  through_dedicated n = true ->
  debug_of o || getenv (environ w) "DATAHUB_DEBUG" false = false ->
  debug_of o' || getenv (environ w) "DATAHUB_DEBUG" false = true ->
  let quiet := sinks (logging (exec (bootstrap getenv kw o) w)) n lvl msg in
  let loud := sinks (logging (exec (bootstrap getenv kw' o') w)) n lvl msg in
  (forall s, s ∈ quiet -> s ∈ loud) /\
  (INFO <= lvl -> loud = quiet) /\
  (DEBUG <= lvl < INFO -> quiet = [] /\ loud = [stdout_sink; file_sink]).
Proof.
  intros Hu Hn Hoff Hon. cbv zeta.
  rewrite (sinks_from_untouched getenv kw o w n lvl msg Hu Hn), Hoff.
  rewrite (sinks_from_untouched getenv kw' o' w n lvl msg Hu Hn), Hon.
  unfold DEBUG, INFO, WARNING.
  destruct (Z.leb_spec 10 lvl), (Z.leb_spec 20 lvl), (Z.leb_spec 30 lvl),
    (Z.leb_spec lvl 20); try lia; cbn [app];
    repeat split; try intros s; intros;
    rewrite ?elem_of_cons, ?elem_of_nil in *;
    try reflexivity; try lia; intuition (try discriminate; auto).
Qed.

Lemma debug_only_adds_output_witness :
  sinks (logging (exec (bootstrap sample_getenv (mkKwargs ObjNone)
                          (mkOptions false None (Some true) false))
                       (import_world ∅)))
        Entrypoints DEBUG "detail"
  = [stdout_sink; file_sink].
Proof.
  refine (proj2 (proj2 (proj2
    (debug_only_adds_output sample_getenv (mkKwargs ObjNone)
       (mkOptions false None None false) (mkKwargs ObjNone)
       (mkOptions false None (Some true) false) (import_world ∅)
       Entrypoints DEBUG "detail" _ _ _ _)) _)).
  - split; reflexivity.
  - reflexivity.
  - reflexivity.
  - reflexivity.
  - unfold DEBUG, INFO. lia.
Defined.
